(** * blackbox-attacks-eccv: MNIST model zoo and CIFAR-10 ensemble adversarial trainer

    A shallow embedding of [mnist.py] and [tutorial/cifar10_train_ensadv.py].

    - Python exceptions are the left summand of [Py.result].
    - NumPy arrays and TensorFlow tensors are a shape together with the
      row-major list of their entries.
    - [float32] entries are IEEE 754 binary32 numbers, through the
      parameterised operations of the standard library's [SpecFloat]
      (24 bits of precision, exponent bound 128).
    - Keras models are the list of layers that [Sequential.add] collected;
      a name that the module never bound raises [NameError] when it is
      evaluated. *)

From Stdlib Require Import ZArith List String Bool Lia QArith Qabs.
From Stdlib Require Import Floats.SpecFloat.
Import ListNotations.

Open Scope Z_scope.

(* ===================================================================== *)
(** ** Python: exceptions, sequencing, list indexing *)
(* ===================================================================== *)

Module Py.

Inductive exn : Type :=
| NameError (name : string)
| IndexError
| IOError
| ValueError
| OtherError (msg : string).

(** [inl e]: the exception [e] was raised; [inr v]: normal completion. *)
Definition result (A : Type) : Type := (exn + A)%type.

Definition ret {A} (v : A) : result A := inr v.
Definition raise {A} (e : exn) : result A := inl e.

Definition bind {A B} (c : result A) (k : A -> result B) : result B :=
  match c with
  | inl e => inl e
  | inr v => k v
  end.

(** [try: body  except IOError: handler].  Only [IOError] is caught. *)
Definition try_except_IOError {A} (body : result A) (handler : result A)
  : result A :=
  match body with
  | inl IOError => handler
  | other => other
  end.

(** [l[i]] for a Python list: a negative index counts from the end, and an
    index outside [-len(l), len(l)) raises [IndexError]. *)
Definition getitem {A} (l : list A) (i : Z) : result A :=
  let n := Z.of_nat (List.length l) in
  let j := if i <? 0 then i + n else i in
  if (0 <=? j) && (j <? n) then
    match nth_error l (Z.to_nat j) with
    | Some v => ret v
    | None => raise IndexError
    end
  else raise IndexError.

(** A keyword argument with a default value. *)
Definition kwarg {A} (given : option A) (default : A) : A :=
  match given with
  | Some v => v
  | None => default
  end.

End Py.

Notation "x <- c ;; k" := (Py.bind c (fun x => k))
  (at level 61, c at next level, right associativity).

(* ===================================================================== *)
(** ** binary32 floating point *)
(* ===================================================================== *)

Module F32.

Definition prec : Z := 24.
Definition emax : Z := 128.

Definition t : Type := spec_float.

Definition nan : t := S754_nan.
Definition zero : t := S754_zero false.

(** Conversion of an integer, rounding to nearest even. *)
Definition of_Z (z : Z) : t := binary_normalize prec emax z 0 false.

Definition add : t -> t -> t := SFadd prec emax.
Definition mul : t -> t -> t := SFmul prec emax.
Definition div : t -> t -> t := SFdiv prec emax.
Definition ltb : t -> t -> bool := SFltb.
Definition eqb : t -> t -> bool := SFeqb.

(** Conversion from another binary format (used for float64 -> float32). *)
Definition of_float (x : spec_float) : t :=
  match x with
  | S754_finite s m e => binary_round prec emax s m e
  | other => other
  end.

(** The rational number a finite float denotes. *)
Definition to_Q (x : t) : option Q :=
  match x with
  | S754_zero _ => Some 0%Q
  | S754_finite s m e =>
      let mag := (inject_Z (Z.pos m) * Qpower 2 e)%Q in
      Some (if s then Qopp mag else mag)
  | _ => None
  end.

End F32.

Module F64.

Definition prec : Z := 53.
Definition emax : Z := 1024.
Definition t : Type := spec_float.
Definition zero : t := S754_zero false.
Definition of_Z (z : Z) : t := binary_normalize prec emax z 0 false.

End F64.

(* ===================================================================== *)
(** ** n-dimensional arrays *)
(* ===================================================================== *)

Record ndarray (A : Type) : Type := mk_ndarray {
  shape : list nat;
  data : list A            (* row-major *)
}.
Arguments mk_ndarray {A}.
Arguments shape {A}.
Arguments data {A}.

Definition numel (sh : list nat) : nat := fold_right Nat.mul 1%nat sh.

(** [a.reshape(sh)]: same entries, new shape; [ValueError] when the number
    of entries does not fit. *)
Definition reshape {A} (a : ndarray A) (sh : list nat) : Py.result (ndarray A) :=
  if Nat.eqb (numel sh) (List.length (data a))
  then Py.ret (mk_ndarray sh (data a))
  else Py.raise Py.ValueError.

(** Entry-wise map: [astype], [a /= c], and the unary TensorFlow ops. *)
Definition amap {A B} (f : A -> B) (a : ndarray A) : ndarray B :=
  mk_ndarray (shape a) (map f (data a)).

(** Row [i] of a matrix whose rows have [width] entries. *)
Definition row {A} (width : nat) (a : ndarray A) (i : nat) : list A :=
  firstn width (skipn (i * width) (data a)).

(** [for x in xs: f(x)], collecting the results; the first exception wins. *)
Fixpoint mapM {A B} (f : A -> Py.result B) (xs : list A) : Py.result (list B) :=
  match xs with
  | [] => Py.ret []
  | x :: rest =>
      v <- f x ;;
      vs <- mapM f rest ;;
      Py.ret (v :: vs)
  end.

(* ===================================================================== *)
(** ** mnist.py *)
(* ===================================================================== *)

Module Mnist.

Local Open Scope string_scope.

Definition IMAGE_ROWS : nat := 28.
Definition IMAGE_COLS : nat := 28.
Definition NUM_CHANNELS : nat := 1.
Definition NUM_CLASSES : nat := 10.

(** The names bound at module level: the imports (lines 1-9), the four
    constants and the functions the file defines. *)
Definition module_globals : list string :=
  [ "mnist"; "Sequential"; "model_from_json";
    "Dense"; "Dropout"; "Activation"; "Flatten"; "Input";
    "Convolution2D"; "MaxPooling2D";
    "ImageDataGenerator"; "np_utils"; "argparse"; "np";
    "IMAGE_ROWS"; "IMAGE_COLS"; "NUM_CHANNELS"; "NUM_CLASSES";
    "data_mnist"; "modelA"; "modelB"; "modelC"; "modelD"; "modelE";
    "modelF"; "model_mnist"; "data_gen_mnist"; "load_model" ].

(** Evaluating a global name. *)
Definition lookup (name : string) : Py.result unit :=
  if existsb (String.eqb name) module_globals
  then Py.ret tt
  else Py.raise (Py.NameError name).

(** *** Dataset loader *)

(** Modelled from the spec: Keras' [np_utils.to_categorical] is a library
    helper whose code is not part of the repository.  The glossary gives its
    result: "representing an integer class label as a vector with a single 1
    at the class index and 0 elsewhere".  The entries are float64; a label
    that is not a class index has no such vector and raises [IndexError]. *)
Definition one_hot_row (num_classes : nat) (label : Z) : Py.result (list F64.t) :=
  if ((0 <=? label) && (label <? Z.of_nat num_classes))%Z then
    Py.ret (map (fun j => if Nat.eqb j (Z.to_nat label)
                          then F64.of_Z 1 else F64.zero)
                (seq 0 num_classes))
  else Py.raise Py.IndexError.

Definition to_categorical (y : ndarray Z) (num_classes : nat)
  : Py.result (ndarray F64.t) :=
  rows <- mapM (one_hot_row num_classes) (data y) ;;
  Py.ret (mk_ndarray [List.length (data y); num_classes] (List.concat rows)).

(** What [mnist.load_data()] hands over: uint8 images and uint8 labels. *)
Record dataset : Type := mk_dataset {
  raw_X_train : ndarray Z;
  raw_y_train : ndarray Z;
  raw_X_test : ndarray Z;
  raw_y_test : ndarray Z
}.

(** The label tensors are integer arrays ([one_hot=False]) or float32
    matrices ([one_hot=True]). *)
Inductive labels : Type :=
| IntLabels (y : ndarray Z)
| OneHot (y : ndarray F32.t).

(** [a.shape[0]] *)
Definition shape0 {A} (a : ndarray A) : Py.result nat :=
  Py.getitem (shape a) 0.

(** [a /= 255] on a float32 array. *)
Definition idiv_255 (a : ndarray F32.t) : ndarray F32.t :=
  amap (fun x => F32.div x (F32.of_Z 255)) a.

(** [load_data] is what [mnist.load_data()] returned.  The shapes and sizes
    that the function prints are not part of its result. *)
Definition data_mnist (load_data : dataset) (one_hot : option bool)
  : Py.result (ndarray F32.t * labels * ndarray F32.t * labels) :=
  let one_hot := Py.kwarg one_hot true in
  let X_train := raw_X_train load_data in
  let y_train := raw_y_train load_data in
  let X_test := raw_X_test load_data in
  let y_test := raw_y_test load_data in
  n_train <- shape0 X_train ;;
  X_train <- reshape X_train [n_train; IMAGE_ROWS; IMAGE_COLS; NUM_CHANNELS] ;;
  n_test <- shape0 X_test ;;
  X_test <- reshape X_test [n_test; IMAGE_ROWS; IMAGE_COLS; NUM_CHANNELS] ;;
  let X_train := amap F32.of_Z X_train in
  let X_test := amap F32.of_Z X_test in
  let X_train := idiv_255 X_train in
  let X_test := idiv_255 X_test in
  if one_hot then
    c_train <- to_categorical y_train NUM_CLASSES ;;
    let y_train := amap F32.of_float c_train in
    c_test <- to_categorical y_test NUM_CLASSES ;;
    let y_test := amap F32.of_float c_test in
    Py.ret (X_train, OneHot y_train, X_test, OneHot y_test)
  else
    Py.ret (X_train, IntLabels y_train, X_test, IntLabels y_test).

(** *** Keras layers and Sequential models *)

Inductive border_mode : Type := valid | same.

Inductive layer_op : Type :=
| Convolution2D (nb_filter nb_row nb_col : nat) (subsample : nat * nat)
                (border : border_mode)
| Activation (name : string)
| Dropout (p : Q)
| Flatten
| Dense (output_dim : nat) (init : option string) (activation : option string)
| MaxPooling2D (pool_size : nat * nat).

Record layer : Type := mk_layer {
  op : layer_op;
  input_shape : option (list nat)
}.

Definition Sequential : Type := list layer.

(** [model.add(Class(...))]: the class name is evaluated first, then the
    layer is appended. *)
Definition add (model : Sequential) (class_name : string) (o : layer_op)
    (input_shape : option (list nat)) : Py.result Sequential :=
  _ <- lookup class_name ;;
  Py.ret (model ++ [mk_layer o input_shape])%list.

Definition image_shape : option (list nat) :=
  Some [IMAGE_ROWS; IMAGE_COLS; NUM_CHANNELS].

Definition modelA (_ : unit) : Py.result Sequential :=
  _ <- lookup "Sequential" ;;
  let model : Sequential := [] in
  model <- add model "Conv2D" (Convolution2D 64 5 5 (1, 1) valid)%nat None ;;
  model <- add model "Activation" (Activation "relu") None ;;
  model <- add model "Conv2D" (Convolution2D 64 5 5 (1, 1) valid)%nat None ;;
  model <- add model "Activation" (Activation "relu") None ;;
  model <- add model "Dropout" (Dropout (1 # 4)) None ;;
  model <- add model "Flatten" Flatten None ;;
  model <- add model "Dense" (Dense 128 None None) None ;;
  model <- add model "Activation" (Activation "relu") None ;;
  model <- add model "Dropout" (Dropout (1 # 2)) None ;;
  model <- add model "Dense" (Dense NUM_CLASSES None None) None ;;
  Py.ret model.

Definition modelB (_ : unit) : Py.result Sequential :=
  _ <- lookup "Sequential" ;;
  let model : Sequential := [] in
  model <- add model "Dropout" (Dropout (1 # 5)) image_shape ;;
  model <- add model "Convolution2D" (Convolution2D 64 8 8 (2, 2) same)%nat None ;;
  model <- add model "Activation" (Activation "relu") None ;;
  model <- add model "Convolution2D" (Convolution2D 128 6 6 (2, 2) valid)%nat None ;;
  model <- add model "Activation" (Activation "relu") None ;;
  model <- add model "Convolution2D" (Convolution2D 128 5 5 (1, 1) valid)%nat None ;;
  model <- add model "Activation" (Activation "relu") None ;;
  model <- add model "Dropout" (Dropout (1 # 2)) None ;;
  model <- add model "Flatten" Flatten None ;;
  model <- add model "Dense" (Dense NUM_CLASSES None None) None ;;
  Py.ret model.

Definition modelC (_ : unit) : Py.result Sequential :=
  _ <- lookup "Sequential" ;;
  let model : Sequential := [] in
  model <- add model "Convolution2D" (Convolution2D 128 3 3 (1, 1) valid)%nat image_shape ;;
  model <- add model "Activation" (Activation "relu") None ;;
  model <- add model "Convolution2D" (Convolution2D 64 3 3 (1, 1) valid)%nat None ;;
  model <- add model "Activation" (Activation "relu") None ;;
  model <- add model "Dropout" (Dropout (1 # 4)) None ;;
  model <- add model "Flatten" Flatten None ;;
  model <- add model "Dense" (Dense 128 None None) None ;;
  model <- add model "Activation" (Activation "relu") None ;;
  model <- add model "Dropout" (Dropout (1 # 2)) None ;;
  model <- add model "Dense" (Dense NUM_CLASSES None None) None ;;
  Py.ret model.

Definition modelD (_ : unit) : Py.result Sequential :=
  _ <- lookup "Sequential" ;;
  let model : Sequential := [] in
  model <- add model "Flatten" Flatten image_shape ;;
  model <- add model "Dense" (Dense 300 (Some "he_normal") (Some "relu")) None ;;
  model <- add model "Dropout" (Dropout (1 # 2)) None ;;
  model <- add model "Dense" (Dense 300 (Some "he_normal") (Some "relu")) None ;;
  model <- add model "Dropout" (Dropout (1 # 2)) None ;;
  model <- add model "Dense" (Dense 300 (Some "he_normal") (Some "relu")) None ;;
  model <- add model "Dropout" (Dropout (1 # 2)) None ;;
  model <- add model "Dense" (Dense 300 (Some "he_normal") (Some "relu")) None ;;
  model <- add model "Dropout" (Dropout (1 # 2)) None ;;
  model <- add model "Dense" (Dense NUM_CLASSES None None) None ;;
  Py.ret model.

Definition modelE (_ : unit) : Py.result Sequential :=
  _ <- lookup "Sequential" ;;
  let model : Sequential := [] in
  model <- add model "Flatten" Flatten image_shape ;;
  model <- add model "Dense" (Dense 100 None (Some "relu")) None ;;
  model <- add model "Dense" (Dense 100 None (Some "relu")) None ;;
  model <- add model "Dense" (Dense NUM_CLASSES None None) None ;;
  Py.ret model.

Definition modelF (_ : unit) : Py.result Sequential :=
  _ <- lookup "Sequential" ;;
  let model : Sequential := [] in
  model <- add model "Convolution2D" (Convolution2D 32 3 3 (1, 1) valid)%nat image_shape ;;
  model <- add model "Activation" (Activation "relu") None ;;
  model <- add model "MaxPooling2D" (MaxPooling2D (2, 2))%nat None ;;
  model <- add model "Convolution2D" (Convolution2D 64 3 3 (1, 1) valid)%nat None ;;
  model <- add model "Activation" (Activation "relu") None ;;
  model <- add model "MaxPooling2D" (MaxPooling2D (2, 2))%nat None ;;
  model <- add model "Flatten" Flatten None ;;
  model <- add model "Dense" (Dense 1024 None None) None ;;
  model <- add model "Activation" (Activation "relu") None ;;
  model <- add model "Dense" (Dense NUM_CLASSES None None) None ;;
  Py.ret model.

Definition model_mnist (type : option Z) : Py.result Sequential :=
  let type := Py.kwarg type 0 in
  let models := [modelA; modelB; modelC; modelD; modelE; modelF] in
  factory <- Py.getitem models type ;;
  factory tt.

(** *** Shapes through a model

    Keras' shape rules for the layers above, on the shape of one sample
    (rows, columns, channels).  A layer that cannot take its input raises
    [ValueError]. *)

Definition conv_length (border : border_mode) (n k s : nat) : Py.result nat :=
  if (s =? 0)%nat then Py.raise Py.ValueError else
  match border with
  | valid => if (k <=? n)%nat then Py.ret ((n - k) / s + 1)%nat
             else Py.raise Py.ValueError
  | same => Py.ret ((n + s - 1) / s)%nat
  end.

Definition compute_output_shape (o : layer_op) (sh : list nat)
  : Py.result (list nat) :=
  match o, sh with
  | Convolution2D nb_filter nb_row nb_col (sr, sc) border, [r; c; _] =>
      r' <- conv_length border r nb_row sr ;;
      c' <- conv_length border c nb_col sc ;;
      Py.ret [r'; c'; nb_filter]
  | MaxPooling2D (pr, pc), [r; c; ch] =>
      r' <- conv_length valid r pr pr ;;
      c' <- conv_length valid c pc pc ;;
      Py.ret [r'; c'; ch]
  | Activation _, _ => Py.ret sh
  | Dropout _, _ => Py.ret sh
  | Flatten, _ => Py.ret [numel sh]
  | Dense output_dim _ _, [_] => Py.ret [output_dim]
  | _, _ => Py.raise Py.ValueError
  end.

Fixpoint through_layers (ls : list layer) (sh : list nat)
  : Py.result (list nat) :=
  match ls with
  | [] => Py.ret sh
  | l :: rest =>
      sh' <- compute_output_shape (op l) sh ;;
      through_layers rest sh'
  end.

(** The input shape a model was declared with, if any: the [input_shape]
    argument of its first layer. *)
Definition declared_input (model : Sequential) : option (list nat) :=
  match model with
  | l :: _ => input_shape l
  | [] => None
  end.

(** Shape of [model(batch)] for a batch of shape [batch_shape]. *)
Definition output_shape (model : Sequential) (batch_shape : list nat)
  : Py.result (list nat) :=
  match batch_shape with
  | [] => Py.raise Py.ValueError
  | n :: sample =>
      _ <- match declared_input model with
           | Some d => if list_eq_dec Nat.eq_dec d sample
                       then Py.ret tt else Py.raise Py.ValueError
           | None => Py.ret tt
           end ;;
      out <- through_layers model sample ;;
      Py.ret (n :: out)
  end.

(** Construct variant [type] and feed it a batch of [n] images. *)
Definition build_and_feed (type : Z) (n : nat) : Py.result (list nat) :=
  model <- model_mnist (Some type) ;;
  output_shape model [n; IMAGE_ROWS; IMAGE_COLS; NUM_CHANNELS].

(** *** Model persistence *)

Section LoadModel.

(** The files that can be opened for reading, with their contents;
    [open] raises [IOError] on any other path. *)
Variable fs : string -> option string.

(** Keras' [model_from_json] and [Model.load_weights]. *)
Variable LoadedModel : Type.
Variable model_from_json : string -> Py.result Sequential.
Variable load_weights : Sequential -> string -> Py.result LoadedModel.

(** [with open(path, 'r') as f: f.read()] *)
Definition open_read (path : string) : Py.result string :=
  match fs path with
  | Some contents => Py.ret contents
  | None => Py.raise Py.IOError
  end.

(** The message printed after a successful [model_from_json] is left out. *)
Definition load_model (model_path : string) (type : option Z)
  : Py.result LoadedModel :=
  let type := Py.kwarg type 1 in
  model <- Py.try_except_IOError
             (json_string <- open_read (model_path ++ ".json") ;;
              model <- model_from_json json_string ;;
              Py.ret model)
             (model_mnist (Some type)) ;;
  load_weights model model_path.

End LoadModel.

End Mnist.

(* ===================================================================== *)
(** ** tutorial/cifar10_train_ensadv.py *)
(* ===================================================================== *)

Module Cifar10TrainEnsadv.

Definition tensor : Type := ndarray F32.t.

(** *** The TensorFlow operations the script applies *)

(** [tf.sign]: [-1 if x < 0; 0 if x == 0; 1 if x > 0], and zero for NaN. *)
Definition tf_sign (x : F32.t) : F32.t :=
  if F32.ltb x F32.zero then F32.of_Z (-1)
  else if F32.ltb F32.zero x then F32.of_Z 1
  else F32.zero.

(** [tf.minimum]: [x < y ? x : y]; [tf.maximum]: [x > y ? x : y]. *)
Definition tf_minimum (x y : F32.t) : F32.t := if F32.ltb x y then x else y.
Definition tf_maximum (x y : F32.t) : F32.t := if F32.ltb y x then x else y.

(** [tf.clip_by_value(t, lo, hi)] is [maximum(minimum(t, hi), lo)]. *)
Definition clip (lo hi x : F32.t) : F32.t := tf_maximum (tf_minimum x hi) lo.

Definition tf_clip_by_value (t : tensor) (lo hi : F32.t) : tensor :=
  amap (clip lo hi) t.

(** A Python float times a tensor. *)
Definition scalar_mul (c : F32.t) (t : tensor) : tensor := amap (F32.mul c) t.

(** [a + b] for tensors of one shape.  The script only adds a tensor to a
    multiple of its own gradient, so broadcasting is left out: shapes that
    differ are rejected when the graph is built. *)
Definition tf_add (a b : tensor) : Py.result tensor :=
  if list_eq_dec Nat.eq_dec (shape a) (shape b) then
    if Nat.eqb (List.length (data a)) (List.length (data b)) then
      Py.ret (mk_ndarray (shape a)
                (map (fun p => F32.add (fst p) (snd p))
                     (combine (data a) (data b))))
    else Py.raise Py.ValueError
  else Py.raise Py.ValueError.

Definition tf_fill (dims : list nat) (v : F32.t) : tensor :=
  mk_ndarray dims (repeat v (numel dims)).

Definition tf_stop_gradient (t : tensor) : tensor := t.

Definition tf_equal (x y : Z) : bool := Z.eqb x y.

(** [tf.case(pred_fn_pairs, default)]: the first pair whose predicate holds
    decides; [default] when none does. *)
Fixpoint tf_case {A} (pred_fn_pairs : list (bool * (unit -> A)))
    (default : unit -> A) : A :=
  match pred_fn_pairs with
  | [] => default tt
  | (p, fn) :: rest => if p then fn tt else tf_case rest default
  end.

(** *** One evaluation of the training graph *)

(** What [cifar10_input_ensemble.distorted_inputs] delivers for a step. *)
Record batch : Type := mk_batch {
  images : tensor;
  images_adv_thin : tensor;
  images_adv_wide : tensor;
  images_adv_tutorial : tensor;
  labels : ndarray Z
}.

Definition with_labels (b : batch) (l : ndarray Z) : batch :=
  mk_batch (images b) (images_adv_thin b) (images_adv_wide b)
           (images_adv_tutorial b) l.

Definition with_thin (b : batch) (t : tensor) : batch :=
  mk_batch (images b) t (images_adv_wide b) (images_adv_tutorial b) (labels b).

Section Train.

(** [FLAGS.batch_size] and [FLAGS.epsilon]. *)
Variable batch_size : nat.
Variable epsilon : F32.t.

(** The collaborators of [cifar10_reusable] and of TensorFlow that the
    script only calls: the classifier, its loss, the optimiser step,
    [tf.argmax(_, axis=1)], and [tf.gradients(y, x)] with [y] given as a
    function of [x]. *)
Variable inference : tensor -> tensor.
Variable loss : tensor -> ndarray Z -> F32.t.
Variable TrainOp : Type.
Variable reusable_train : F32.t -> Z -> TrainOp.
Variable argmax : tensor -> ndarray Z.
Variable gradients : (tensor -> F32.t) -> tensor -> tensor.

(** The closure sees the enclosing scope: the batch and the clean logits.
    [tf.argmax] has no gradient, so the predicted labels are constants of
    the differentiated loss. *)
Definition make_dynamic_adv_images (b : batch) (logits : tensor)
  : Py.result tensor :=
  let noleak_labels := argmax logits in
  let noleak_loss := fun x => loss (inference x) noleak_labels in
  let grads := gradients noleak_loss (images b) in
  let perturbation := scalar_mul epsilon (amap tf_sign grads) in
  shifted <- tf_add (images b) perturbation ;;
  let adv_images :=
    tf_stop_gradient (tf_clip_by_value shifted F32.zero (F32.of_Z 255)) in
  Py.ret adv_images.

Definition make_poison (_ : unit) : tensor :=
  tf_fill [batch_size; 32; 32; 3]%nat F32.nan.

Record step : Type := mk_step {
  logits : tensor;
  loss_benign : F32.t;
  dynamic_adv_images : tensor;
  adv_images : tensor;
  adv_logits : tensor;
  loss_adv : F32.t;
  loss_total : F32.t;
  train_op : TrainOp
}.

(** The graph of [train()], evaluated on one batch, one draw of
    [adv_choice] and the current global step.  The summaries, the precision
    metric and the monitored session that runs [train_op] repeatedly are
    left out. *)
Definition train (b : batch) (adv_choice : Z) (global_step : Z)
  : Py.result step :=
  let logits := inference (images b) in
  let loss_benign := loss logits (labels b) in
  dynamic_adv_images <- make_dynamic_adv_images b logits ;;
  let adv_images :=
    tf_case
      [ (tf_equal adv_choice 0, fun _ => dynamic_adv_images);
        (* images_adv_thin is held out *)
        (tf_equal adv_choice 1, fun _ => images_adv_wide b);
        (tf_equal adv_choice 2, fun _ => images_adv_tutorial b) ]
      make_poison in
  let adv_logits := inference adv_images in
  let loss_adv := loss adv_logits (labels b) in
  let loss_total := F32.add loss_benign loss_adv in
  let train_op := reusable_train loss_total global_step in
  Py.ret (mk_step logits loss_benign dynamic_adv_images adv_images
                  adv_logits loss_adv loss_total train_op).

End Train.

End Cifar10TrainEnsadv.

(* ===================================================================== *)
(** ** Vocabulary of the properties, and inputs to run the code on *)
(* ===================================================================== *)

(** The float32 quotient of a raw pixel by 255. *)
Definition scaled (r : Z) : F32.t := F32.div (F32.of_Z r) (F32.of_Z 255).

(** [v] is a finite number of the unit interval, and it is [r / 255]
    rounded to float32: the relative error is at most [2^-24]. *)
Definition unit_quotient (r : Z) (v : F32.t) : Prop :=
  exists q : Q,
    F32.to_Q v = Some q
    /\ (0 <= q)%Q /\ (q <= 1)%Q
    /\ (Qabs (q * 255 - inject_Z r) * 2 ^ 24 <= inject_Z r)%Q.

Definition unit_quotient_b (r : Z) (v : F32.t) : bool :=
  match F32.to_Q v with
  | Some q =>
      Qle_bool 0 q && Qle_bool q 1
      && Qle_bool (Qabs (q * 255 - inject_Z r) * 2 ^ 24) (inject_Z r)
  | None => false
  end.

(** The one-hot row of a class, as float32. *)
Definition one_hot_vec (c : Z) : list F32.t :=
  map (fun j => if Nat.eqb j (Z.to_nat c) then F32.of_Z 1 else F32.zero)
      (seq 0 Mnist.NUM_CLASSES).

(** Sum of a row, left to right. *)
Definition fsum (xs : list F32.t) : F32.t := fold_left F32.add xs F32.zero.

(** [m] is the one-hot encoding of the label vector [y]: one row of ten
    entries per label, with sum 1, holding 1 at the label and 0 elsewhere. *)
Definition one_hot_of (y : ndarray Z) (m : ndarray F32.t) : Prop :=
  shape m = [List.length (data y); 10%nat]
  /\ List.length (data m) = (List.length (data y) * 10)%nat
  /\ forall (i : nat) (c : Z),
       nth_error (data y) i = Some c ->
       List.length (row 10 m i) = 10%nat
       /\ fsum (row 10 m i) = F32.of_Z 1
       /\ forall j : nat, (j < 10)%nat ->
            nth j (row 10 m i) F32.nan =
            if Nat.eqb j (Z.to_nat c) then F32.of_Z 1 else F32.zero.

(** The input that [data_mnist] expects from [mnist.load_data]: images of
    28 x 28 bytes, and one digit per label. *)
Record canonical (ds : Mnist.dataset) (n_train n_test : nat) : Prop := {
  train_shape : shape (Mnist.raw_X_train ds) = [n_train; 28; 28]%nat;
  train_size : List.length (data (Mnist.raw_X_train ds)) = (n_train * 784)%nat;
  test_shape : shape (Mnist.raw_X_test ds) = [n_test; 28; 28]%nat;
  test_size : List.length (data (Mnist.raw_X_test ds)) = (n_test * 784)%nat;
  train_bytes : Forall (fun r => 0 <= r <= 255) (data (Mnist.raw_X_train ds));
  test_bytes : Forall (fun r => 0 <= r <= 255) (data (Mnist.raw_X_test ds));
  train_digits : Forall (fun c => 0 <= c <= 9) (data (Mnist.raw_y_train ds));
  test_digits : Forall (fun c => 0 <= c <= 9) (data (Mnist.raw_y_test ds))
}.

(** A data set of two training images and one test image. *)
Definition demo_dataset : Mnist.dataset :=
  Mnist.mk_dataset
    (mk_ndarray [2; 28; 28]%nat (repeat 0 784 ++ repeat 255 784))
    (mk_ndarray [2]%nat [3; 9])
    (mk_ndarray [1; 28; 28]%nat (repeat 128 784))
    (mk_ndarray [1]%nat [0]).

(** Two tensors of one shape, with as many entries. *)
Definition same_layout {A B} (a : ndarray A) (b : ndarray B) : Prop :=
  shape a = shape b /\ List.length (data a) = List.length (data b).

Section TrainTerms.

Import Cifar10TrainEnsadv.

Variable epsilon : F32.t.
Variable inference : tensor -> tensor.
Variable loss : tensor -> ndarray Z -> F32.t.
Variable argmax : tensor -> ndarray Z.
Variable gradients : (tensor -> F32.t) -> tensor -> tensor.

(** The loss that the attack differentiates: the classifier's loss against
    the labels it predicts for the clean images. *)
Definition noleak_loss_of (b : batch) : tensor -> F32.t :=
  fun x => loss (inference x) (argmax (inference (images b))).

(** The perturbed images before clipping. *)
Definition shifted_images (b : batch) : tensor :=
  mk_ndarray (shape (images b))
    (map (fun p => F32.add (fst p) (snd p))
         (combine (data (images b))
            (map (F32.mul epsilon)
               (map tf_sign (data (gradients (noleak_loss_of b) (images b))))))).

End TrainTerms.

(** A small file system and stand-ins for Keras, to run [load_model] on:
    ["m.json"] holds a description that deserialises to the empty model,
    ["bad.json"] holds text that [model_from_json] rejects. *)
Definition demo_fs (path : string) : option string :=
  if String.eqb path "m.json" then Some "{}"%string
  else if String.eqb path "bad.json" then Some "{"%string
  else None.

Definition demo_model_from_json (s : string) : Py.result Mnist.Sequential :=
  if String.eqb s "{}" then Py.ret []
  else Py.raise (Py.OtherError "malformed JSON").

Definition demo_load_weights (model : Mnist.Sequential) (path : string)
  : Py.result (Mnist.Sequential * string) :=
  Py.ret (model, path).

(** Stand-ins for the classifier, its loss, the optimiser and the two
    TensorFlow primitives, to run the graph on: the loss depends on its
    labels, and the gradient depends on the loss it is given. *)
Definition demo_inference (t : Cifar10TrainEnsadv.tensor)
  : Cifar10TrainEnsadv.tensor := t.

Definition demo_loss (t : Cifar10TrainEnsadv.tensor) (l : ndarray Z) : F32.t :=
  F32.add (fsum (data t)) (F32.of_Z (fold_right Z.add 0 (data l))).

Definition demo_train (l : F32.t) (global_step : Z) : F32.t * Z :=
  (l, global_step + 1).

Definition demo_argmax (t : Cifar10TrainEnsadv.tensor) : ndarray Z :=
  mk_ndarray [1%nat] [0].

Definition demo_gradients (f : Cifar10TrainEnsadv.tensor -> F32.t)
    (x : Cifar10TrainEnsadv.tensor) : Cifar10TrainEnsadv.tensor :=
  amap (fun v => F32.add v (f x)) x.

(** One image of three entries, two of them outside [0,255]. *)
Definition demo_batch : Cifar10TrainEnsadv.batch :=
  Cifar10TrainEnsadv.mk_batch
    (mk_ndarray [1; 1; 1; 3]%nat [F32.of_Z 300; F32.of_Z (-5); F32.of_Z 17])
    (mk_ndarray [1; 1; 1; 3]%nat [F32.of_Z 1; F32.of_Z 1; F32.of_Z 1])
    (mk_ndarray [1; 1; 1; 3]%nat [F32.of_Z 2; F32.of_Z 2; F32.of_Z 2])
    (mk_ndarray [1; 1; 1; 3]%nat [F32.of_Z 3; F32.of_Z 3; F32.of_Z 3])
    (mk_ndarray [1%nat] [7]).

(* ===================================================================== *)
(** ** tutorial/cifar10_train_ensadv.py: the logging hook and [main] *)
(* ===================================================================== *)

Module LoggerHook.

(** Python floats and [time.time()] readings are binary64. *)
Definition f64 : Type := spec_float.
Definition fsub : f64 -> f64 -> f64 := SFsub F64.prec F64.emax.
Definition fdiv : f64 -> f64 -> f64 := SFdiv F64.prec F64.emax.

(** [x == 0.0] *)
Definition is_zero (x : f64) : bool :=
  match x with
  | S754_zero _ => true
  | _ => false
  end.

Definition ZeroDivisionError : Py.exn := Py.OtherError "ZeroDivisionError".
Definition OverflowError : Py.exn := Py.OtherError "OverflowError".

(** The conversion of an int operand of a float operation: an int too
    large for a float raises [OverflowError]. *)
Definition float_of_int (n : Z) : Py.result f64 :=
  match F64.of_Z n with
  | S754_infinity _ => Py.raise OverflowError
  | x => Py.ret x
  end.

(** [a / b] on floats: dividing by zero raises. *)
Definition float_div (a b : f64) : Py.result f64 :=
  if is_zero b then Py.raise ZeroDivisionError else Py.ret (fdiv a b).

(** [n % d] on ints: the result has the sign of [d]; [d = 0] raises. *)
Definition int_mod (n d : Z) : Py.result Z :=
  if d =? 0 then Py.raise ZeroDivisionError else Py.ret (n mod d).


(** The attributes of a [_LoggerHook]. *)
Record hook : Type := mk_hook {
  _step : Z;
  _start_time : f64
}.

(** The values that one log line formats (the wall-clock stamp in front of
    them is left out). *)
Record log_line : Type := mk_log_line {
  at_step : Z;
  loss_value : F32.t;
  examples_per_sec : f64;
  sec_per_batch : f64
}.

Section Flags.

(** [FLAGS.log_frequency] and [FLAGS.batch_size]. *)
Variable log_frequency : Z.
Variable batch_size : Z.

(** [begin]; [now] is the reading of [time.time()]. *)
Definition begin (now : f64) : hook := mk_hook (-1) now.

(** [before_run]: counts the run (and asks for the value of [loss_total]). *)
Definition before_run (self : hook) : hook :=
  mk_hook (_step self + 1) (_start_time self).

(** [after_run]; [now] is the reading of [time.time()] and [results] the
    value of [loss_total] in this run.  Returns the hook and the line it
    printed, if any. *)
Definition after_run (self : hook) (now : f64) (results : F32.t)
  : Py.result (hook * option log_line) :=
  r <- int_mod (_step self) log_frequency ;;
  if r =? 0 then
    let current_time := now in
    let duration := fsub current_time (_start_time self) in
    let self := mk_hook (_step self) current_time in
    let loss_value := results in
    n <- float_of_int (log_frequency * batch_size) ;;
    examples_per_sec <- float_div n duration ;;
    f <- float_of_int log_frequency ;;
    sec_per_batch <- float_div duration f ;;
    Py.ret (self, Some (mk_log_line (_step self) loss_value
                          examples_per_sec sec_per_batch))
  else Py.ret (self, None).

(** What the monitored session does with the hook in a sequence of runs:
    [before_run], the run itself, [after_run].  Each observation is the
    clock reading in [after_run] and the loss of that run. *)
Fixpoint session_runs (self : hook) (obs : list (f64 * F32.t))
  : Py.result (hook * list (option log_line)) :=
  match obs with
  | [] => Py.ret (self, [])
  | (now, results) :: rest =>
      let self := before_run self in
      r <- after_run self now results ;;
      rs <- session_runs (fst r) rest ;;
      Py.ret (fst rs, snd r :: snd rs)
  end.

End Flags.

End LoggerHook.

Module TrainDir.

(** A path, as its components from the root; the file system, as the
    paths that exist. *)
Definition path : Type := list string.







End TrainDir.

(** More inputs to run the code on: a [model_from_json] whose read fails
    with [IOError], label arrays that are no digits, clock readings one
    second apart, and a file system with an old training directory. *)
Definition demo_json_IOError (s : string) : Py.result Mnist.Sequential :=
  Py.raise Py.IOError.

Definition demo_unlabelled : Mnist.dataset :=
  Mnist.mk_dataset
    (mk_ndarray [1; 28; 28]%nat (repeat 7 784))
    (mk_ndarray [3]%nat [-1; 10; 500])
    (mk_ndarray [1; 28; 28]%nat (repeat 9 784))
    (mk_ndarray []%nat []).

Definition demo_clock : list (LoggerHook.f64 * F32.t) :=
  map (fun k => (F64.of_Z (100 + Z.of_nat k), F32.of_Z (Z.of_nat k)))
      (seq 1 5).


(* ===================================================================== *)
(** ** Properties of the architecture factory *)
(* ===================================================================== *)

Section FactoryFacts.

Import Mnist.

Lemma lookup_Conv2D : lookup "Conv2D" = inl (Py.NameError "Conv2D").
Proof. reflexivity. Qed.

Lemma lookup_Convolution2D : lookup "Convolution2D" = inr tt.
Proof. reflexivity. Qed.

(** The five factories that only use imported layer classes build a model
    that maps a batch of [n] images to [n] rows of ten scores. *)
Lemma variants_B_to_F_feed (type : Z) (n : nat) :
  1 <= type <= 5 -> build_and_feed type n = inr [n; NUM_CLASSES].
Proof.
  intros H.
  assert (type = 1 \/ type = 2 \/ type = 3 \/ type = 4 \/ type = 5) as Hc by lia.
  destruct Hc as [-> | [-> | [-> | [-> | ->]]]]; reflexivity.
Qed.

(** An index that is not in [-6, 5] is outside the list of factories. *)
Lemma getitem_six_out_of_range {A} (a b c d e f : A) (i : Z) :
  i < -6 \/ 5 < i -> Py.getitem [a; b; c; d; e; f] i = inl Py.IndexError.
Proof.
  intros H. unfold Py.getitem.
  change (Z.of_nat (List.length [a; b; c; d; e; f])) with 6.
  cbv zeta.
  destruct (Z.ltb_spec i 0) as [Hneg | Hpos].
  - replace (0 <=? i + 6) with false by (symmetry; apply Z.leb_gt; lia).
    reflexivity.
  - replace (i <? 6) with false by (symmetry; apply Z.ltb_ge; lia).
    now rewrite andb_false_r.
Qed.

End FactoryFacts.

(** C1 (the code departs from the claim at variant 0): [modelA] builds its
    convolutions with the name [Conv2D], which the module never imports, so
    constructing variant 0 raises [NameError] and no batch can be fed to
    it. *)
Theorem modelA_raises_NameError :
  Mnist.modelA tt = inl (Py.NameError "Conv2D")
  /\ Mnist.model_mnist (Some 0) = inl (Py.NameError "Conv2D")
  /\ Mnist.model_mnist None = inl (Py.NameError "Conv2D")
  /\ forall n : nat, Mnist.build_and_feed 0 n = inl (Py.NameError "Conv2D").
Proof. repeat split. Qed.

(** C5, as stated, fails: index [-1] is outside [0,5], yet [models[-1]] is
    the last factory and [model_mnist] returns the model of [modelF]. *)
Lemma model_mnist_minus_one_is_modelF :
  Mnist.model_mnist (Some (-1)) = Mnist.modelF tt
  /\ (exists m, Mnist.model_mnist (Some (-1)) = inr m)
  /\ ~ (forall type : Z, ~ (0 <= type <= 5) ->
          exists e, Mnist.model_mnist (Some type) = inl e).
Proof.
  split; [reflexivity | split].
  - eexists. reflexivity.
  - intros H. destruct (H (-1)) as [e He]; [lia | discriminate He].
Qed.

(** C5 (amended): an index below [-6] or above [5] raises [IndexError] and
    no model is built; an index from [-6] to [-1] counts from the end of
    the list of factories and behaves as the index six above it. *)
Theorem model_mnist_index_out_of_range (type : Z) :
  (type < -6 \/ 5 < type ->
     Mnist.model_mnist (Some type) = inl Py.IndexError)
  /\ (-6 <= type < 0 ->
     Mnist.model_mnist (Some type) = Mnist.model_mnist (Some (type + 6))).
Proof.
  split; intros H.
  - unfold Mnist.model_mnist. cbn [Py.kwarg].
    now rewrite getitem_six_out_of_range.
  - assert (type = -6 \/ type = -5 \/ type = -4 \/ type = -3 \/ type = -2
            \/ type = -1) as Hc by lia.
    destruct Hc as [-> | [-> | [-> | [-> | [-> | ->]]]]]; reflexivity.
Qed.

Lemma model_mnist_index_out_of_range_witness :
  Mnist.model_mnist (Some 6) = inl Py.IndexError
  /\ Mnist.model_mnist (Some (-2)) = Mnist.model_mnist (Some 4).
Proof.
  split.
  - apply (proj1 (model_mnist_index_out_of_range 6)). right. reflexivity.
  - apply (proj2 (model_mnist_index_out_of_range (-2))).
    split; [discriminate | reflexivity].
Defined.

(* ===================================================================== *)
(** ** Properties of [load_model] *)
(* ===================================================================== *)

Section LoadModelFacts.

Import Mnist.

Variable fs : string -> option string.
Variable LoadedModel : Type.
Variable model_from_json : string -> Py.result Sequential.
Variable load_weights : Sequential -> string -> Py.result LoadedModel.

Let load := load_model fs LoadedModel model_from_json load_weights.

(** No sidecar: the handler of [except IOError] builds the model. *)
Lemma load_model_absent (model_path : string) (type : option Z) :
  fs (model_path ++ ".json")%string = None ->
  load model_path type =
    (model <- model_mnist (Some (Py.kwarg type 1)) ;;
     load_weights model model_path).
Proof.
  intros Habs. unfold load, load_model, open_read.
  rewrite Habs. reflexivity.
Qed.

(** A sidecar that can be read: [model_from_json] decides. *)
Lemma load_model_present (model_path : string) (type : option Z)
    (json_string : string) :
  fs (model_path ++ ".json")%string = Some json_string ->
  load model_path type =
    (model <- Py.try_except_IOError (model_from_json json_string)
                (model_mnist (Some (Py.kwarg type 1))) ;;
     load_weights model model_path).
Proof.
  intros Hfile. unfold load, load_model, open_read.
  rewrite Hfile. cbn [Py.bind Py.ret].
  destruct (model_from_json json_string) as [e | m]; reflexivity.
Qed.

(** The [try] block also covers [model_from_json]: an [IOError] raised
    there takes the fallback path too. *)
Lemma load_model_json_IOError (model_path : string) (type : option Z)
    (json_string : string) :
  fs (model_path ++ ".json")%string = Some json_string ->
  model_from_json json_string = inl Py.IOError ->
  load model_path type =
    (model <- model_mnist (Some (Py.kwarg type 1)) ;;
     load_weights model model_path).
Proof.
  intros Hfile Hjson.
  rewrite (load_model_present _ _ _ Hfile), Hjson. reflexivity.
Qed.

End LoadModelFacts.

(** C6: without a readable [<model_path>.json] ([open] raises [IOError]),
    [load_model] builds variant [type] with [model_mnist] and loads the
    weights from [<model_path>] into it; with a readable sidecar that
    [model_from_json] accepts, the deserialised model is used instead and
    the weights are loaded from [<model_path>] all the same; an exception
    of [model_from_json] other than [IOError] reaches the caller. *)
Theorem load_model_json_or_fallback
    (fs : string -> option string) (LoadedModel : Type)
    (model_from_json : string -> Py.result Mnist.Sequential)
    (load_weights : Mnist.Sequential -> string -> Py.result LoadedModel)
    (model_path : string) (type : option Z) :
  (fs (model_path ++ ".json")%string = None ->
     Mnist.load_model fs LoadedModel model_from_json load_weights
       model_path type =
     (model <- Mnist.model_mnist (Some (Py.kwarg type 1)) ;;
      load_weights model model_path))
  /\ (forall json_string model,
        fs (model_path ++ ".json")%string = Some json_string ->
        model_from_json json_string = inr model ->
        Mnist.load_model fs LoadedModel model_from_json load_weights
          model_path type =
        load_weights model model_path)
  /\ (forall json_string e,
        fs (model_path ++ ".json")%string = Some json_string ->
        model_from_json json_string = inl e ->
        e <> Py.IOError ->
        Mnist.load_model fs LoadedModel model_from_json load_weights
          model_path type =
        inl e).
Proof.
  split; [apply load_model_absent | split].
  - intros json_string model Hfile Hjson.
    rewrite (load_model_present _ _ _ _ _ _ _ Hfile), Hjson. reflexivity.
  - intros json_string e Hfile Hjson Hne.
    rewrite (load_model_present _ _ _ _ _ _ _ Hfile), Hjson.
    destruct e; try reflexivity. now elim Hne.
Qed.

Lemma load_model_json_or_fallback_witness :
  (exists m,
     Mnist.modelD tt = inr m /\
     Mnist.load_model demo_fs _ demo_model_from_json demo_load_weights
       "absent" (Some 3) = inr (m, "absent"%string))
  /\ Mnist.load_model demo_fs _ demo_model_from_json demo_load_weights
       "m" (Some 3) = inr ([], "m"%string)
  /\ Mnist.load_model demo_fs _ demo_model_from_json demo_load_weights
       "bad" (Some 3) = inl (Py.OtherError "malformed JSON").
Proof.
  split; [| split].
  - eexists. split; [reflexivity |].
    rewrite (proj1 (load_model_json_or_fallback demo_fs _
                      demo_model_from_json demo_load_weights
                      "absent" (Some 3)) eq_refl).
    reflexivity.
  - apply (proj1 (proj2 (load_model_json_or_fallback demo_fs _
                           demo_model_from_json demo_load_weights
                           "m" (Some 3))) "{}"%string []);
      reflexivity.
  - apply (proj2 (proj2 (load_model_json_or_fallback demo_fs _
                           demo_model_from_json demo_load_weights
                           "bad" (Some 3))) "{"%string);
      [reflexivity | reflexivity | discriminate].
Defined.

(** C10: called without [type], and with no sidecar to read, [load_model]
    builds the model of [modelB] (index 1 of the factory list), which is a
    model, and not what [modelA] (index 0) gives. *)
Theorem load_model_default_is_variant_B
    (fs : string -> option string) (LoadedModel : Type)
    (model_from_json : string -> Py.result Mnist.Sequential)
    (load_weights : Mnist.Sequential -> string -> Py.result LoadedModel)
    (model_path : string) :
  fs (model_path ++ ".json")%string = None ->
  Mnist.load_model fs LoadedModel model_from_json load_weights
    model_path None =
  (model <- Mnist.modelB tt ;; load_weights model model_path)
  /\ Mnist.model_mnist (Some 1) = Mnist.modelB tt
  /\ (exists m, Mnist.modelB tt = inr m)
  /\ Mnist.modelB tt <> Mnist.modelA tt.
Proof.
  intros Habs. split; [| split; [| split]].
  - now rewrite load_model_absent.
  - reflexivity.
  - eexists. reflexivity.
  - discriminate.
Qed.

Lemma load_model_default_is_variant_B_witness :
  exists m,
    Mnist.modelB tt = inr m /\
    Mnist.load_model demo_fs _ demo_model_from_json demo_load_weights
      "absent" None = inr (m, "absent"%string).
Proof.
  eexists. split; [reflexivity |].
  rewrite (proj1 (load_model_default_is_variant_B demo_fs _
                    demo_model_from_json demo_load_weights
                    "absent" eq_refl)).
  reflexivity.
Defined.

(* ===================================================================== *)
(** ** Properties of [data_mnist] *)
(* ===================================================================== *)

Section DataFacts.

Import Mnist.

Lemma unit_quotient_b_sound (r : Z) (v : F32.t) :
  unit_quotient_b r v = true -> unit_quotient r v.
Proof.
  unfold unit_quotient_b, unit_quotient.
  destruct (F32.to_Q v) as [q |]; [| discriminate].
  intros H. apply andb_prop in H as [H H3]. apply andb_prop in H as [H1 H2].
  exists q. repeat split; try now apply Qle_bool_iff.
Qed.

Lemma bytes_scaled_check :
  forallb (fun k => unit_quotient_b (Z.of_nat k) (scaled (Z.of_nat k)))
          (seq 0 256) = true.
Proof. vm_compute. reflexivity. Qed.

(** Every byte is scaled into the unit interval. *)
Lemma scaled_byte (r : Z) : 0 <= r <= 255 -> unit_quotient r (scaled r).
Proof.
  intros Hr. apply unit_quotient_b_sound.
  pose proof bytes_scaled_check as Hall.
  rewrite forallb_forall in Hall.
  specialize (Hall (Z.to_nat r)).
  rewrite Z2Nat.id in Hall by lia.
  apply Hall, in_seq. lia.
Qed.

(** The float64 row that [to_categorical] writes for a class. *)
Lemma mapM_one_hot_row (ys : list Z) :
  Forall (fun c => 0 <= c <= 9) ys ->
  mapM (one_hot_row NUM_CLASSES) ys =
  inr (map (fun c => map (fun j => if Nat.eqb j (Z.to_nat c)
                                   then F64.of_Z 1 else F64.zero)
                         (seq 0 NUM_CLASSES)) ys).
Proof.
  induction 1 as [| c ys Hc _ IH]; [reflexivity |].
  cbn [mapM]. rewrite IH. unfold one_hot_row.
  replace ((0 <=? c) && (c <? Z.of_nat NUM_CLASSES)) with true; [reflexivity |].
  symmetry. apply andb_true_intro. split.
  - apply Z.leb_le. lia.
  - apply Z.ltb_lt. unfold NUM_CLASSES. lia.
Qed.

Lemma one_hot_vec_cast (c : Z) :
  map F32.of_float
      (map (fun j => if Nat.eqb j (Z.to_nat c)
                     then F64.of_Z 1 else F64.zero)
           (seq 0 NUM_CLASSES)) = one_hot_vec c.
Proof.
  unfold one_hot_vec. rewrite map_map. apply map_ext.
  intros j. destruct (Nat.eqb j (Z.to_nat c)); reflexivity.
Qed.

(** Rows of a matrix stored as the concatenation of its rows. *)
Lemma row_of_concat {A} (w : nat) (rows : list (list A)) :
  Forall (fun r => List.length r = w) rows ->
  forall (i : nat) (r : list A),
    nth_error rows i = Some r ->
    firstn w (skipn (i * w) (List.concat rows)) = r.
Proof.
  induction 1 as [| a rows Ha _ IH]; intros i r Hi.
  - destruct i; discriminate Hi.
  - destruct i as [| i]; cbn [nth_error] in Hi; cbn [List.concat].
    + injection Hi as <-. cbn [Nat.mul skipn].
      rewrite firstn_app, <- Ha, firstn_all, Nat.sub_diag.
      cbn [firstn]. apply app_nil_r.
    + cbn [Nat.mul]. rewrite skipn_app, Ha.
      rewrite skipn_all2 by lia.
      replace (w + i * w - w)%nat with (i * w)%nat by lia.
      cbn [app]. now apply IH.
Qed.

Lemma length_concat_uniform {A} (w : nat) (rows : list (list A)) :
  Forall (fun r => List.length r = w) rows ->
  List.length (List.concat rows) = (List.length rows * w)%nat.
Proof.
  induction 1 as [| a rows Ha _ IH]; [reflexivity |].
  cbn [List.concat List.length Nat.mul]. rewrite length_app, Ha, IH. lia.
Qed.

(** The ten possible rows, checked one by one. *)
Lemma one_hot_vec_digit (c : Z) :
  0 <= c <= 9 ->
  List.length (one_hot_vec c) = 10%nat
  /\ fsum (one_hot_vec c) = F32.of_Z 1
  /\ forall j : nat, (j < 10)%nat ->
       nth j (one_hot_vec c) F32.nan =
       if Nat.eqb j (Z.to_nat c) then F32.of_Z 1 else F32.zero.
Proof.
  intros Hc.
  assert (c = 0 \/ c = 1 \/ c = 2 \/ c = 3 \/ c = 4 \/ c = 5 \/ c = 6
          \/ c = 7 \/ c = 8 \/ c = 9) as Hcases by lia.
  repeat (destruct Hcases as [-> | Hcases]); try subst c;
    (split; [reflexivity | split; [vm_compute; reflexivity |]]);
    intros j Hj;
    do 10 (destruct j as [| j]; [reflexivity |]); lia.
Qed.

End DataFacts.

Section DataMnist.

Import Mnist.

Variable ds : dataset.
Variables n_train n_test : nat.
Hypothesis Hds : canonical ds n_train n_test.

Lemma reshape_images (X : ndarray Z) (n : nat) :
  List.length (data X) = (n * 784)%nat ->
  reshape X [n; IMAGE_ROWS; IMAGE_COLS; NUM_CHANNELS] =
  inr (mk_ndarray [n; 28; 28; 1]%nat (data X)).
Proof.
  intros Hlen. unfold reshape. rewrite Hlen.
  change (numel [n; IMAGE_ROWS; IMAGE_COLS; NUM_CHANNELS]) with (n * 784)%nat.
  now rewrite Nat.eqb_refl.
Qed.

Lemma scale_images (X : ndarray Z) (sh : list nat) :
  idiv_255 (amap F32.of_Z (mk_ndarray sh (data X))) =
  mk_ndarray sh (map scaled (data X)).
Proof.
  unfold idiv_255, amap. cbn [shape data]. now rewrite map_map.
Qed.

Lemma categorical_labels (y : ndarray Z) :
  Forall (fun c => 0 <= c <= 9) (data y) ->
  (c <- to_categorical y NUM_CLASSES ;;
   Py.ret (amap F32.of_float c)) =
  inr (mk_ndarray [List.length (data y); 10%nat]
         (List.concat (map one_hot_vec (data y)))).
Proof.
  intros Hy. unfold to_categorical.
  rewrite (mapM_one_hot_row _ Hy). cbn [Py.bind Py.ret].
  unfold amap. cbn [shape data].
  rewrite concat_map, map_map.
  unfold Py.ret. do 3 f_equal. apply map_ext. intros c. apply one_hot_vec_cast.
Qed.

(** What [data_mnist] returns on a canonical data set. *)
Lemma data_mnist_returns (one_hot : option bool) :
  data_mnist ds one_hot =
  inr (mk_ndarray [n_train; 28; 28; 1]%nat (map scaled (data (raw_X_train ds))),
       (if Py.kwarg one_hot true
        then OneHot (mk_ndarray [List.length (data (raw_y_train ds)); 10%nat]
                       (List.concat (map one_hot_vec (data (raw_y_train ds)))))
        else IntLabels (raw_y_train ds)),
       mk_ndarray [n_test; 28; 28; 1]%nat (map scaled (data (raw_X_test ds))),
       (if Py.kwarg one_hot true
        then OneHot (mk_ndarray [List.length (data (raw_y_test ds)); 10%nat]
                       (List.concat (map one_hot_vec (data (raw_y_test ds)))))
        else IntLabels (raw_y_test ds))).
Proof.
  destruct Hds as [Hs1 Hl1 Hs2 Hl2 _ _ Hy1 Hy2].
  unfold data_mnist, shape0. rewrite Hs1, Hs2.
  cbn [Py.getitem List.length Z.of_nat Pos.of_succ_nat Pos.succ
       Z.ltb Z.leb Z.compare Pos.compare Pos.compare_cont andb
       Z.to_nat nth_error Py.bind Py.ret].
  rewrite (reshape_images _ _ Hl1), (reshape_images _ _ Hl2).
  cbn [Py.bind]. rewrite !scale_images.
  destruct (Py.kwarg one_hot true); [| reflexivity].
  pose proof (categorical_labels _ Hy1) as E1.
  pose proof (categorical_labels _ Hy2) as E2.
  destruct (to_categorical (raw_y_train ds) NUM_CLASSES) as [e1 | c1];
    [discriminate E1 |].
  destruct (to_categorical (raw_y_test ds) NUM_CLASSES) as [e2 | c2];
    [discriminate E2 |].
  cbn [Py.bind] in *. unfold Py.ret in *. congruence.
Qed.

Lemma scaled_bytes (raw : list Z) :
  Forall (fun r => 0 <= r <= 255) raw ->
  Forall2 unit_quotient raw (map scaled raw).
Proof.
  induction 1 as [| r raw Hr _ IH]; cbn [map]; constructor; auto.
  now apply scaled_byte.
Qed.

Lemma one_hot_of_concat (y : ndarray Z) :
  Forall (fun c => 0 <= c <= 9) (data y) ->
  one_hot_of y (mk_ndarray [List.length (data y); 10%nat]
                  (List.concat (map one_hot_vec (data y)))).
Proof.
  intros Hy.
  assert (Forall (fun r => List.length r = 10%nat) (map one_hot_vec (data y)))
    as Hrows.
  { apply Forall_map. eapply Forall_impl; [| exact Hy].
    intros c Hc. apply (one_hot_vec_digit c Hc). }
  split; [reflexivity | split].
  - cbn [data]. rewrite (length_concat_uniform _ _ Hrows). now rewrite length_map.
  - intros i c Hi. unfold row. cbn [data].
    rewrite (row_of_concat 10 _ Hrows i (one_hot_vec c)).
    + apply one_hot_vec_digit.
      rewrite Forall_forall in Hy. apply Hy. eapply nth_error_In, Hi.
    + now rewrite nth_error_map, Hi.
Qed.

End DataMnist.

Lemma Forall_between (lo hi : Z) (l : list Z) :
  forallb (fun r => (lo <=? r) && (r <=? hi)) l = true ->
  Forall (fun r => lo <= r <= hi) l.
Proof.
  intros H. apply Forall_forall. intros r Hr.
  rewrite forallb_forall in H. specialize (H r Hr).
  apply andb_prop in H as [H1 H2]. split; now apply Z.leb_le.
Qed.

(** C7: on a canonical data set (every raw pixel an integer of [0,255]),
    [data_mnist] returns image tensors of shape (n,28,28,1) whose entries
    are, position by position, the float32 quotient of the raw value by 255:
    a finite number of [0,1] that is the raw value over 255 rounded to
    float32. *)
Theorem data_mnist_pixels_scaled
    (ds : Mnist.dataset) (n_train n_test : nat) (one_hot : option bool) :
  canonical ds n_train n_test ->
  exists X_train y_train X_test y_test,
    Mnist.data_mnist ds one_hot = inr (X_train, y_train, X_test, y_test)
    /\ shape X_train = [n_train; 28; 28; 1]%nat
    /\ shape X_test = [n_test; 28; 28; 1]%nat
    /\ data X_train = map scaled (data (Mnist.raw_X_train ds))
    /\ data X_test = map scaled (data (Mnist.raw_X_test ds))
    /\ Forall2 unit_quotient (data (Mnist.raw_X_train ds)) (data X_train)
    /\ Forall2 unit_quotient (data (Mnist.raw_X_test ds)) (data X_test).
Proof.
  intros Hds. do 4 eexists.
  split; [apply (data_mnist_returns ds n_train n_test Hds) |].
  cbn [shape data]. repeat split.
  - apply scaled_bytes, (train_bytes _ _ _ Hds).
  - apply scaled_bytes, (test_bytes _ _ _ Hds).
Qed.

Lemma data_mnist_pixels_scaled_witness :
  exists X_train y_train X_test y_test,
    Mnist.data_mnist demo_dataset None = inr (X_train, y_train, X_test, y_test)
    /\ shape X_train = [2; 28; 28; 1]%nat
    /\ shape X_test = [1; 28; 28; 1]%nat
    /\ data X_train = map scaled (data (Mnist.raw_X_train demo_dataset))
    /\ data X_test = map scaled (data (Mnist.raw_X_test demo_dataset))
    /\ Forall2 unit_quotient (data (Mnist.raw_X_train demo_dataset)) (data X_train)
    /\ Forall2 unit_quotient (data (Mnist.raw_X_test demo_dataset)) (data X_test).
Proof.
  apply (data_mnist_pixels_scaled demo_dataset 2 1 None).
  constructor; try reflexivity; apply Forall_between; vm_compute; reflexivity.
Defined.

(** C8: on a canonical data set (every label a digit of [0,9]),
    [data_mnist(one_hot=True)], which is also the default, returns label
    matrices with one row of ten entries per label, each row summing to
    exactly 1 and holding 1 at the label and 0 elsewhere;
    [data_mnist(one_hot=False)] returns the integer label arrays it was
    given, whose values are in [0,9]. *)
Theorem data_mnist_labels
    (ds : Mnist.dataset) (n_train n_test : nat) :
  canonical ds n_train n_test ->
  (exists X_train y_train X_test y_test,
     Mnist.data_mnist ds (Some true) =
       inr (X_train, Mnist.OneHot y_train, X_test, Mnist.OneHot y_test)
     /\ one_hot_of (Mnist.raw_y_train ds) y_train
     /\ one_hot_of (Mnist.raw_y_test ds) y_test)
  /\ Mnist.data_mnist ds None = Mnist.data_mnist ds (Some true)
  /\ (exists X_train X_test,
        Mnist.data_mnist ds (Some false) =
          inr (X_train, Mnist.IntLabels (Mnist.raw_y_train ds),
               X_test, Mnist.IntLabels (Mnist.raw_y_test ds))
        /\ Forall (fun c => 0 <= c <= 9) (data (Mnist.raw_y_train ds))
        /\ Forall (fun c => 0 <= c <= 9) (data (Mnist.raw_y_test ds))).
Proof.
  intros Hds. split; [| split].
  - do 4 eexists.
    split; [apply (data_mnist_returns ds n_train n_test Hds (Some true)) |].
    split; apply one_hot_of_concat.
    + apply (train_digits _ _ _ Hds).
    + apply (test_digits _ _ _ Hds).
  - reflexivity.
  - do 2 eexists.
    split; [apply (data_mnist_returns ds n_train n_test Hds (Some false)) |].
    split; [apply (train_digits _ _ _ Hds) | apply (test_digits _ _ _ Hds)].
Qed.

Lemma data_mnist_labels_witness :
  (exists X_train y_train X_test y_test,
     Mnist.data_mnist demo_dataset (Some true) =
       inr (X_train, Mnist.OneHot y_train, X_test, Mnist.OneHot y_test)
     /\ one_hot_of (Mnist.raw_y_train demo_dataset) y_train
     /\ one_hot_of (Mnist.raw_y_test demo_dataset) y_test)
  /\ Mnist.data_mnist demo_dataset None = Mnist.data_mnist demo_dataset (Some true)
  /\ (exists X_train X_test,
        Mnist.data_mnist demo_dataset (Some false) =
          inr (X_train, Mnist.IntLabels (Mnist.raw_y_train demo_dataset),
               X_test, Mnist.IntLabels (Mnist.raw_y_test demo_dataset))
        /\ Forall (fun c => 0 <= c <= 9) (data (Mnist.raw_y_train demo_dataset))
        /\ Forall (fun c => 0 <= c <= 9) (data (Mnist.raw_y_test demo_dataset))).
Proof.
  apply (data_mnist_labels demo_dataset 2 1).
  constructor; try reflexivity; apply Forall_between; vm_compute; reflexivity.
Defined.

(* ===================================================================== *)
(** ** Properties of the adversarial training graph *)
(* ===================================================================== *)

Section FloatFacts.

Import Cifar10TrainEnsadv.

(** The sign of a gradient entry is one of three finite numbers. *)
Lemma tf_sign_values (g : F32.t) :
  tf_sign g = F32.of_Z (-1) \/ tf_sign g = F32.of_Z 1 \/ tf_sign g = F32.zero.
Proof.
  unfold tf_sign.
  destruct (F32.ltb g F32.zero); [now left |].
  destruct (F32.ltb F32.zero g); [right; now left | right; now right].
Qed.

(** A zero step times a sign is a zero. *)
Lemma zero_times_sign (s : bool) (g : F32.t) :
  exists s', F32.mul (S754_zero s) (tf_sign g) = S754_zero s'.
Proof.
  destruct (tf_sign_values g) as [-> | [-> | ->]];
    destruct s; eexists; reflexivity.
Qed.

(** Adding a zero changes nothing that clipping to [0,255] can see. *)
Lemma clip_add_zero (x : F32.t) (s : bool) :
  clip F32.zero (F32.of_Z 255) (F32.add x (S754_zero s)) =
  clip F32.zero (F32.of_Z 255) x.
Proof.
  destruct x as [sx | sx | | sx m e]; try reflexivity.
  destruct sx, s; reflexivity.
Qed.

Lemma clip_zero_step (s : bool) (x g : F32.t) :
  clip F32.zero (F32.of_Z 255)
       (F32.add x (F32.mul (S754_zero s) (tf_sign g))) =
  clip F32.zero (F32.of_Z 255) x.
Proof.
  destruct (zero_times_sign s g) as [s' ->]. apply clip_add_zero.
Qed.

Lemma clip_zero_step_all (s : bool) (xs gs : list F32.t) :
  List.length gs = List.length xs ->
  map (clip F32.zero (F32.of_Z 255))
      (map (fun p => F32.add (fst p) (snd p))
           (combine xs (map (F32.mul (S754_zero s)) (map tf_sign gs)))) =
  map (clip F32.zero (F32.of_Z 255)) xs.
Proof.
  revert gs. induction xs as [| x xs IH]; intros [| g gs] Hlen;
    try discriminate Hlen; [reflexivity |].
  cbn [map combine fst snd]. rewrite clip_zero_step. f_equal.
  apply IH. now injection Hlen.
Qed.

(** Tensors of one layout can be added. *)
Lemma tf_add_same_layout (a b : tensor) :
  same_layout b a ->
  tf_add a b =
  inr (mk_ndarray (shape a)
         (map (fun p => F32.add (fst p) (snd p)) (combine (data a) (data b)))).
Proof.
  intros [Hs Hl]. unfold tf_add.
  destruct (list_eq_dec Nat.eq_dec (shape a) (shape b)) as [_ | Hne];
    [| now elim Hne].
  now rewrite Hl, Nat.eqb_refl.
Qed.

Lemma repeat_all {A} (v : A) (n : nat) : Forall (eq v) (repeat v n).
Proof. induction n; cbn [repeat]; constructor; auto. Qed.

End FloatFacts.

Section TrainFacts.

Import Cifar10TrainEnsadv.

Variable batch_size : nat.
Variable epsilon : F32.t.
Variable inference : tensor -> tensor.
Variable loss : tensor -> ndarray Z -> F32.t.
Variable TrainOp : Type.
Variable reusable_train : F32.t -> Z -> TrainOp.
Variable argmax : tensor -> ndarray Z.
Variable gradients : (tensor -> F32.t) -> tensor -> tensor.

(** [tf.gradients(y, x)] has the shape of [x]. *)
Hypothesis gradients_layout : forall f x, same_layout (gradients f x) x.

Let dynamic := make_dynamic_adv_images epsilon inference loss argmax gradients.
Let run := train batch_size epsilon inference loss TrainOp reusable_train
                 argmax gradients.
Let noleak := noleak_loss_of inference loss argmax.
Let shifted := shifted_images epsilon inference loss argmax gradients.

Lemma dynamic_returns (b : batch) :
  dynamic b (inference (images b)) =
  inr (tf_clip_by_value (shifted b) F32.zero (F32.of_Z 255)).
Proof.
  unfold dynamic, make_dynamic_adv_images.
  rewrite tf_add_same_layout; [reflexivity |].
  destruct (gradients_layout
              (fun x => loss (inference x) (argmax (inference (images b))))
              (images b)) as [Hs Hl].
  split; cbn [scalar_mul amap shape data]; [exact Hs |].
  now rewrite !length_map.
Qed.

(** The graph can be evaluated on every batch and every draw. *)
Lemma train_returns (b : batch) (adv_choice global_step : Z) :
  exists v, run b adv_choice global_step = inr v
    /\ inr (dynamic_adv_images _ v) = dynamic b (inference (images b))
    /\ adv_images _ v =
       tf_case
         [ (tf_equal adv_choice 0, fun _ => dynamic_adv_images _ v);
           (tf_equal adv_choice 1, fun _ => images_adv_wide b);
           (tf_equal adv_choice 2, fun _ => images_adv_tutorial b) ]
         (make_poison batch_size)
    /\ loss_benign _ v = loss (inference (images b)) (labels b)
    /\ loss_adv _ v = loss (inference (adv_images _ v)) (labels b)
    /\ loss_total _ v = F32.add (loss_benign _ v) (loss_adv _ v)
    /\ train_op _ v = reusable_train (loss_total _ v) global_step.
Proof.
  unfold run, train. fold dynamic. rewrite dynamic_returns.
  cbn [Py.bind Py.ret]. eexists. split; [reflexivity |].
  cbn [dynamic_adv_images adv_images loss_benign loss_adv loss_total train_op].
  repeat split.
Qed.

(** C2: on every batch and for every draw the graph evaluates, and the
    adversarial batch is: for draw 0 the dynamic FGSM batch computed in
    this step, for draw 1 the precomputed wide batch, for draw 2 the
    precomputed tutorial batch, and for any other draw the tensor of shape
    (batch_size,32,32,3) whose entries are all NaN.  Replacing the
    precomputed thin batch changes the adversarial batch for no draw. *)
Theorem adv_images_selection (b : batch) (adv_choice global_step : Z) :
  exists v,
    run b adv_choice global_step = inr v
    /\ inr (dynamic_adv_images _ v) = dynamic b (inference (images b))
    /\ (adv_choice = 0 -> adv_images _ v = dynamic_adv_images _ v)
    /\ (adv_choice = 1 -> adv_images _ v = images_adv_wide b)
    /\ (adv_choice = 2 -> adv_images _ v = images_adv_tutorial b)
    /\ (adv_choice <> 0 -> adv_choice <> 1 -> adv_choice <> 2 ->
          adv_images _ v = make_poison batch_size tt
          /\ shape (adv_images _ v) = [batch_size; 32; 32; 3]%nat
          /\ List.length (data (adv_images _ v))
             = (batch_size * 32 * 32 * 3)%nat
          /\ Forall (eq F32.nan) (data (adv_images _ v)))
    /\ (forall thin : tensor,
          exists v',
            run (with_thin b thin) adv_choice global_step = inr v'
            /\ adv_images _ v' = adv_images _ v).
Proof.
  destruct (train_returns b adv_choice global_step)
    as (v & Hv & Hdyn & Hadv & _).
  exists v. split; [exact Hv |]. split; [exact Hdyn |].
  split; [| split; [| split; [| split]]].
  - intros ->. now rewrite Hadv.
  - intros ->. now rewrite Hadv.
  - intros ->. now rewrite Hadv.
  - intros H0 H1 H2. rewrite Hadv. unfold tf_equal. cbn [tf_case].
    rewrite (proj2 (Z.eqb_neq _ _) H0), (proj2 (Z.eqb_neq _ _) H1),
            (proj2 (Z.eqb_neq _ _) H2).
    split; [reflexivity |]. unfold make_poison, tf_fill. cbn [shape data].
    split; [reflexivity |]. split; [| apply repeat_all].
    rewrite repeat_length. unfold numel. cbn [fold_right]. lia.
  - intros thin.
    destruct (train_returns (with_thin b thin) adv_choice global_step)
      as (v' & Hv' & Hdyn' & Hadv' & _).
    exists v'. split; [exact Hv' |].
    assert (dynamic_adv_images _ v' = dynamic_adv_images _ v) as Hsame.
    { change (images (with_thin b thin)) with (images b) in Hdyn'.
      change (dynamic (with_thin b thin) (inference (images b)))
        with (dynamic b (inference (images b))) in Hdyn'.
      congruence. }
    rewrite Hadv', Hadv, Hsame. reflexivity.
Qed.

(** C3: with [epsilon] zero, the dynamic adversarial batch is the clean
    batch clipped to [0,255], entry for entry and with the same shape. *)
Theorem dynamic_adv_images_epsilon_zero (b : batch) (s : bool) :
  epsilon = S754_zero s ->
  dynamic b (inference (images b)) =
    inr (tf_clip_by_value (images b) F32.zero (F32.of_Z 255))
  /\ forall adv_choice global_step,
       exists v,
         run b adv_choice global_step = inr v
         /\ shape (dynamic_adv_images _ v) = shape (images b)
         /\ data (dynamic_adv_images _ v) =
            map (clip F32.zero (F32.of_Z 255)) (data (images b)).
Proof.
  intros Heps.
  assert (tf_clip_by_value (shifted b) F32.zero (F32.of_Z 255)
          = tf_clip_by_value (images b) F32.zero (F32.of_Z 255)) as Hclip.
  { unfold tf_clip_by_value, amap, shifted, shifted_images. cbn [shape data].
    rewrite Heps, clip_zero_step_all; [reflexivity |].
    apply (gradients_layout (noleak b) (images b)). }
  split.
  - now rewrite dynamic_returns, Hclip.
  - intros adv_choice global_step.
    destruct (train_returns b adv_choice global_step)
      as (v & Hv & Hdyn & _).
    exists v. split; [exact Hv |].
    rewrite dynamic_returns, Hclip in Hdyn.
    injection Hdyn as ->. split; reflexivity.
Qed.

(** C4: the attack differentiates the loss against the labels the model
    predicts for the clean images ([argmax] of their logits), and the
    ground-truth labels of the batch do not enter the dynamic adversarial
    batch: replacing them leaves it unchanged. *)
Theorem dynamic_adv_images_ignore_labels
    (b : batch) (adv_choice global_step : Z) :
  exists v,
    run b adv_choice global_step = inr v
    /\ dynamic_adv_images _ v =
       tf_clip_by_value
         (mk_ndarray (shape (images b))
            (map (fun p => F32.add (fst p) (snd p))
               (combine (data (images b))
                  (data (scalar_mul epsilon
                     (amap tf_sign
                        (gradients
                           (fun x => loss (inference x)
                                          (argmax (inference (images b))))
                           (images b))))))))
         F32.zero (F32.of_Z 255)
    /\ forall other_labels : ndarray Z,
         exists v',
           run (with_labels b other_labels) adv_choice global_step = inr v'
           /\ dynamic_adv_images _ v' = dynamic_adv_images _ v.
Proof.
  destruct (train_returns b adv_choice global_step) as (v & Hv & Hdyn & _).
  exists v. split; [exact Hv |]. split.
  - rewrite dynamic_returns in Hdyn. injection Hdyn as ->.
    unfold shifted, shifted_images, noleak_loss_of, scalar_mul, amap.
    cbn [shape data]. reflexivity.
  - intros other_labels.
    destruct (train_returns (with_labels b other_labels)
                adv_choice global_step) as (v' & Hv' & Hdyn' & _).
    exists v'. split; [exact Hv' |].
    change (images (with_labels b other_labels)) with (images b) in Hdyn'.
    change (dynamic (with_labels b other_labels) (inference (images b)))
      with (dynamic b (inference (images b))) in Hdyn'.
    congruence.
Qed.

(** C9: in every step the loss handed to the optimiser is the float32 sum
    of exactly two terms, the loss on the clean images and the loss on the
    adversarial images, both against the labels of the batch, neither
    scaled. *)
Theorem loss_total_is_benign_plus_adv
    (b : batch) (adv_choice global_step : Z) :
  exists v,
    run b adv_choice global_step = inr v
    /\ loss_total _ v =
       F32.add (loss (inference (images b)) (labels b))
               (loss (inference (adv_images _ v)) (labels b))
    /\ loss_benign _ v = loss (inference (images b)) (labels b)
    /\ loss_adv _ v = loss (inference (adv_images _ v)) (labels b)
    /\ train_op _ v = reusable_train (loss_total _ v) global_step.
Proof.
  destruct (train_returns b adv_choice global_step)
    as (v & Hv & _ & _ & Hben & Hadv & Htot & Hop).
  exists v. split; [exact Hv |].
  repeat split; congruence.
Qed.

End TrainFacts.

Lemma adv_images_selection_witness :
  exists v,
    Cifar10TrainEnsadv.train 1 (F32.of_Z 8) demo_inference demo_loss _
      demo_train demo_argmax demo_gradients demo_batch 7 0 = inr v
    /\ Cifar10TrainEnsadv.adv_images _ v =
       mk_ndarray [1; 32; 32; 3]%nat (repeat F32.nan 3072).
Proof.
  assert (forall f x, same_layout (demo_gradients f x) x) as Hlayout.
  { intros f x. split; [reflexivity | apply length_map]. }
  destruct (adv_images_selection 1 (F32.of_Z 8) demo_inference demo_loss _
              demo_train demo_argmax demo_gradients Hlayout demo_batch 7 0)
    as (v & Hv & _ & _ & _ & _ & Hpoison & _).
  exists v. split; [exact Hv |].
  destruct Hpoison as (Hp & _); [discriminate | discriminate | discriminate |].
  exact Hp.
Defined.

Lemma dynamic_adv_images_epsilon_zero_witness :
  Cifar10TrainEnsadv.make_dynamic_adv_images F32.zero demo_inference
    demo_loss demo_argmax demo_gradients demo_batch
    (demo_inference (Cifar10TrainEnsadv.images demo_batch)) =
  inr (mk_ndarray [1; 1; 1; 3]%nat [F32.of_Z 255; F32.zero; F32.of_Z 17]).
Proof.
  assert (forall f x, same_layout (demo_gradients f x) x) as Hlayout.
  { intros f x. split; [reflexivity | apply length_map]. }
  rewrite (proj1 (dynamic_adv_images_epsilon_zero 1 F32.zero demo_inference
                    demo_loss _ demo_train demo_argmax demo_gradients Hlayout
                    demo_batch false eq_refl)).
  reflexivity.
Defined.

Lemma dynamic_adv_images_ignore_labels_witness :
  exists v v',
    Cifar10TrainEnsadv.train 1 (F32.of_Z 8) demo_inference demo_loss _
      demo_train demo_argmax demo_gradients demo_batch 0 0 = inr v
    /\ Cifar10TrainEnsadv.train 1 (F32.of_Z 8) demo_inference demo_loss _
         demo_train demo_argmax demo_gradients
         (Cifar10TrainEnsadv.with_labels demo_batch (mk_ndarray [1%nat] [2]))
         0 0 = inr v'
    /\ Cifar10TrainEnsadv.dynamic_adv_images _ v' =
       Cifar10TrainEnsadv.dynamic_adv_images _ v.
Proof.
  assert (forall f x, same_layout (demo_gradients f x) x) as Hlayout.
  { intros f x. split; [reflexivity | apply length_map]. }
  destruct (dynamic_adv_images_ignore_labels 1 (F32.of_Z 8) demo_inference
              demo_loss _ demo_train demo_argmax demo_gradients Hlayout
              demo_batch 0 0) as (v & Hv & _ & Hother).
  destruct (Hother (mk_ndarray [1%nat] [2])) as (v' & Hv' & Hsame).
  exists v, v'. repeat split; assumption.
Defined.

Lemma loss_total_is_benign_plus_adv_witness :
  exists v,
    Cifar10TrainEnsadv.train 1 (F32.of_Z 8) demo_inference demo_loss _
      demo_train demo_argmax demo_gradients demo_batch 1 0 = inr v
    /\ Cifar10TrainEnsadv.loss_total _ v = F32.of_Z 332.
Proof.
  assert (forall f x, same_layout (demo_gradients f x) x) as Hlayout.
  { intros f x. split; [reflexivity | apply length_map]. }
  destruct (loss_total_is_benign_plus_adv 1 (F32.of_Z 8) demo_inference
              demo_loss _ demo_train demo_argmax demo_gradients Hlayout
              demo_batch 1 0) as (v & Hv & Htot & _).
  exists v. split; [exact Hv |].
  rewrite Htot.
  assert (Cifar10TrainEnsadv.adv_images _ v =
          Cifar10TrainEnsadv.images_adv_wide demo_batch) as ->.
  { vm_compute in Hv. injection Hv as <-. reflexivity. }
  vm_compute. reflexivity.
Defined.

(* ===================================================================== *)
(** ** Further properties of mnist.py *)
(* ===================================================================== *)

(** X1: each of the variants 1 to 5 constructs; the model declares the
    input shape (28,28,1), ends in a dense layer of ten units without an
    activation, and maps a batch of [n] images to [n] rows of ten scores. *)
Theorem variants_B_to_F_well_formed (type : Z) (n : nat) :
  1 <= type <= 5 ->
  exists model,
    Mnist.model_mnist (Some type) = inr model
    /\ Mnist.declared_input model = Some [28; 28; 1]%nat
    /\ option_map Mnist.op (last (map Some model) None)
       = Some (Mnist.Dense 10 None None)
    /\ Mnist.output_shape model [n; 28; 28; 1]%nat = inr [n; 10]%nat.
Proof.
  intros H.
  assert (type = 1 \/ type = 2 \/ type = 3 \/ type = 4 \/ type = 5) as Hc by lia.
  destruct Hc as [-> | [-> | [-> | [-> | ->]]]];
    eexists; (split; [reflexivity |]); repeat split.
Qed.

Lemma variants_B_to_F_well_formed_witness :
  exists model,
    Mnist.model_mnist (Some 5) = inr model
    /\ Mnist.declared_input model = Some [28; 28; 1]%nat
    /\ option_map Mnist.op (last (map Some model) None)
       = Some (Mnist.Dense 10 None None)
    /\ Mnist.output_shape model [64; 28; 28; 1]%nat = inr [64; 10]%nat.
Proof.
  apply (variants_B_to_F_well_formed 5 64). split; discriminate.
Defined.



Section MoreLoadModelFacts.

Import Mnist.

Variable fs : string -> option string.
Variable LoadedModel : Type.
Variable model_from_json : string -> Py.result Sequential.
Variable load_weights : Sequential -> string -> Py.result LoadedModel.

Let load := load_model fs LoadedModel model_from_json load_weights.

(** X3: the [try] block covers the deserialisation too: when the sidecar
    can be read but [model_from_json] raises [IOError], [load_model] takes
    the same fallback as for a missing sidecar. *)
Theorem load_model_IOError_while_deserialising
    (model_path : string) (type : option Z) (json_string : string) :
  fs (model_path ++ ".json")%string = Some json_string ->
  model_from_json json_string = inl Py.IOError ->
  load model_path type =
    (model <- model_mnist (Some (Py.kwarg type 1)) ;;
     load_weights model model_path).
Proof.
  intros Hfile Hjson. unfold load.
  now apply load_model_json_IOError with (json_string := json_string).
Qed.

(** X4: whatever [load_model] returns was returned by [load_weights] for
    some model and the path [model_path] itself. *)
Theorem load_model_returns_loaded_weights
    (model_path : string) (type : option Z) (m : LoadedModel) :
  load model_path type = inr m ->
  exists model, load_weights model model_path = inr m.
Proof.
  unfold load, load_model.
  destruct (Py.try_except_IOError _ _) as [e | model]; cbn [Py.bind].
  - discriminate.
  - intros H. now exists model.
Qed.

(** X5: when the sidecar deserialises, [type] is not looked at: any two
    values of it, in range or not, give the same result. *)
Theorem load_model_ignores_type_with_sidecar
    (model_path json_string : string) (model : Sequential)
    (type type' : option Z) :
  fs (model_path ++ ".json")%string = Some json_string ->
  model_from_json json_string = inr model ->
  load model_path type = load model_path type'.
Proof.
  intros Hfile Hjson. unfold load.
  rewrite !(load_model_present _ _ _ _ _ _ _ Hfile), Hjson. reflexivity.
Qed.

(** X6: without a sidecar, a fallback that cannot be built ends
    [load_model] before any weights are read: [IndexError] for a [type]
    below -6 or above 5, [NameError] for [type] 0 and -6 ([modelA]). *)
Theorem load_model_fallback_failure (model_path : string) (type : Z) :
  fs (model_path ++ ".json")%string = None ->
  (type < -6 \/ 5 < type -> load model_path (Some type) = inl Py.IndexError)
  /\ (type = 0 \/ type = -6 ->
      load model_path (Some type) = inl (Py.NameError "Conv2D")).
Proof.
  intros Habs. unfold load. rewrite (load_model_absent _ _ _ _ _ _ Habs).
  cbn [Py.kwarg]. split.
  - intros H. unfold model_mnist. cbn [Py.kwarg].
    now rewrite getitem_six_out_of_range.
  - intros [-> | ->]; reflexivity.
Qed.

End MoreLoadModelFacts.

Lemma load_model_IOError_while_deserialising_witness :
  exists m,
    Mnist.modelE tt = inr m /\
    Mnist.load_model demo_fs _ demo_json_IOError demo_load_weights
      "m" (Some 4) = inr (m, "m"%string).
Proof.
  eexists. split; [reflexivity |].
  rewrite (load_model_IOError_while_deserialising demo_fs _
             demo_json_IOError demo_load_weights "m" (Some 4) "{}"
             eq_refl eq_refl).
  reflexivity.
Defined.

Lemma load_model_returns_loaded_weights_witness :
  exists model, demo_load_weights model "m" = inr ([], "m"%string).
Proof.
  apply (load_model_returns_loaded_weights demo_fs _ demo_model_from_json
           demo_load_weights "m" None). reflexivity.
Defined.

Lemma load_model_ignores_type_with_sidecar_witness :
  Mnist.load_model demo_fs _ demo_model_from_json demo_load_weights
    "m" (Some 0) =
  Mnist.load_model demo_fs _ demo_model_from_json demo_load_weights
    "m" (Some 99).
Proof.
  apply (load_model_ignores_type_with_sidecar demo_fs _ demo_model_from_json
           demo_load_weights "m" "{}" [] (Some 0) (Some 99));
    reflexivity.
Defined.

Lemma load_model_fallback_failure_witness :
  Mnist.load_model demo_fs _ demo_model_from_json demo_load_weights
    "absent" (Some 6) = inl Py.IndexError
  /\ Mnist.load_model demo_fs _ demo_model_from_json demo_load_weights
       "absent" (Some 0) = inl (Py.NameError "Conv2D").
Proof.
  split.
  - apply (proj1 (load_model_fallback_failure demo_fs _ demo_model_from_json
                    demo_load_weights "absent" 6 eq_refl)).
    right. reflexivity.
  - apply (proj2 (load_model_fallback_failure demo_fs _ demo_model_from_json
                    demo_load_weights "absent" 0 eq_refl)).
    left. reflexivity.
Defined.

Section MoreDataFacts.

Import Mnist.

Lemma shape0_cons {A} (X : ndarray A) (n : nat) (rest : list nat) :
  shape X = n :: rest -> shape0 X = inr n.
Proof.
  intros Hs. unfold shape0, Py.getitem. rewrite Hs.
  cbn [List.length]. cbv zeta.
  change (0 <? 0) with false. cbv iota.
  change (0 <=? 0) with true.
  replace (0 <? Z.of_nat (S (List.length rest))) with true
    by (symmetry; apply Z.ltb_lt; lia).
  reflexivity.
Qed.

Lemma reshape_mismatch (X : ndarray Z) (n : nat) :
  List.length (data X) <> (n * 784)%nat ->
  reshape X [n; IMAGE_ROWS; IMAGE_COLS; NUM_CHANNELS] = inl Py.ValueError.
Proof.
  intros Hlen. unfold reshape.
  change (numel [n; IMAGE_ROWS; IMAGE_COLS; NUM_CHANNELS]) with (n * 784)%nat.
  destruct (Nat.eqb_spec (n * 784) (List.length (data X))) as [E | _];
    [now elim Hlen | reflexivity].
Qed.

Lemma ltb_irrefl (x : F32.t) : F32.ltb x x = false.
Proof.
  unfold F32.ltb, SFltb.
  destruct x as [s | s | | s m e]; cbn [SFcompare]; try reflexivity.
  - destruct s; reflexivity.
  - destruct s; rewrite Z.compare_refl, Pos.compare_cont_refl; reflexivity.
Qed.

Lemma bytes_scaled_increasing_check :
  forallb (fun a =>
             forallb (fun b => if (a <? b)%nat
                               then F32.ltb (scaled (Z.of_nat a))
                                            (scaled (Z.of_nat b))
                               else true)
                     (seq 0 256))
          (seq 0 256) = true.
Proof. vm_compute. reflexivity. Qed.

End MoreDataFacts.

(** X7: with [one_hot=False] the labels are not inspected: whenever each
    image array has [n] as first dimension and [n * 784] entries,
    [data_mnist] returns the two label arrays exactly as loaded, whatever
    they hold and however many there are, next to the scaled images. *)
Theorem data_mnist_int_labels_unchecked
    (ds : Mnist.dataset) (n_train n_test : nat) (rest rest' : list nat) :
  shape (Mnist.raw_X_train ds) = n_train :: rest ->
  List.length (data (Mnist.raw_X_train ds)) = (n_train * 784)%nat ->
  shape (Mnist.raw_X_test ds) = n_test :: rest' ->
  List.length (data (Mnist.raw_X_test ds)) = (n_test * 784)%nat ->
  Mnist.data_mnist ds (Some false) =
  inr (mk_ndarray [n_train; 28; 28; 1]%nat
         (map scaled (data (Mnist.raw_X_train ds))),
       Mnist.IntLabels (Mnist.raw_y_train ds),
       mk_ndarray [n_test; 28; 28; 1]%nat
         (map scaled (data (Mnist.raw_X_test ds))),
       Mnist.IntLabels (Mnist.raw_y_test ds)).
Proof.
  intros Hs1 Hl1 Hs2 Hl2. unfold Mnist.data_mnist.
  rewrite (shape0_cons _ _ _ Hs1), (shape0_cons _ _ _ Hs2).
  cbn [Py.bind]. rewrite (reshape_images _ _ Hl1), (reshape_images _ _ Hl2).
  cbn [Py.bind Py.kwarg]. now rewrite !scale_images.
Qed.

Lemma data_mnist_int_labels_unchecked_witness :
  exists X_train X_test,
    Mnist.data_mnist demo_unlabelled (Some false) =
    inr (X_train, Mnist.IntLabels (mk_ndarray [3]%nat [-1; 10; 500]),
         X_test, Mnist.IntLabels (mk_ndarray []%nat [])).
Proof.
  do 2 eexists.
  apply (data_mnist_int_labels_unchecked demo_unlabelled 1 1
           [28; 28]%nat [28; 28]%nat); reflexivity.
Defined.

(** X8: the training images are checked first and before any label: an
    image array without dimensions raises [IndexError], and one whose
    number of entries is not 784 times its first dimension raises
    [ValueError], for either value of [one_hot]. *)
Theorem data_mnist_bad_train_images
    (ds : Mnist.dataset) (one_hot : option bool) :
  (shape (Mnist.raw_X_train ds) = [] ->
   Mnist.data_mnist ds one_hot = inl Py.IndexError)
  /\ (forall n rest,
        shape (Mnist.raw_X_train ds) = n :: rest ->
        List.length (data (Mnist.raw_X_train ds)) <> (n * 784)%nat ->
        Mnist.data_mnist ds one_hot = inl Py.ValueError).
Proof.
  split.
  - intros Hs. unfold Mnist.data_mnist, Mnist.shape0. rewrite Hs. reflexivity.
  - intros n rest Hs Hl. unfold Mnist.data_mnist.
    rewrite (shape0_cons _ _ _ Hs). cbn [Py.bind].
    now rewrite (reshape_mismatch _ _ Hl).
Qed.

Lemma data_mnist_bad_train_images_witness :
  Mnist.data_mnist
    (Mnist.mk_dataset (mk_ndarray [] [5]) (mk_ndarray [1%nat] [0])
       (mk_ndarray [] [5]) (mk_ndarray [1%nat] [0])) None
  = inl Py.IndexError
  /\ Mnist.data_mnist
       (Mnist.mk_dataset (mk_ndarray [1; 2; 2]%nat [1; 2; 3; 4])
          (mk_ndarray [1%nat] [0])
          (mk_ndarray [1; 2; 2]%nat [1; 2; 3; 4]) (mk_ndarray [1%nat] [0]))
       None
     = inl Py.ValueError.
Proof.
  split.
  - apply (proj1 (data_mnist_bad_train_images _ None)). reflexivity.
  - apply (proj2 (data_mnist_bad_train_images _ None) 1%nat [2; 2]%nat).
    + reflexivity.
    + cbn. discriminate.
Defined.

(** X9: scaling is strictly increasing on bytes, so distinct raw values
    stay distinct, and it maps 0 to 0.0 and 255 to 1.0 exactly. *)
Theorem scaled_strictly_increasing (r1 r2 : Z) :
  0 <= r1 -> r1 < r2 -> r2 <= 255 ->
  F32.ltb (scaled r1) (scaled r2) = true
  /\ scaled r1 <> scaled r2
  /\ scaled 0 = F32.zero
  /\ scaled 255 = F32.of_Z 1.
Proof.
  intros H0 H12 H255.
  assert (F32.ltb (scaled r1) (scaled r2) = true) as Hlt.
  { pose proof bytes_scaled_increasing_check as Hall.
    rewrite forallb_forall in Hall.
    specialize (Hall (Z.to_nat r1)). rewrite forallb_forall in Hall.
    specialize (Hall ltac:(apply in_seq; lia) (Z.to_nat r2)
                     ltac:(apply in_seq; lia)).
    rewrite !Z2Nat.id in Hall by lia.
    destruct (Nat.ltb_spec (Z.to_nat r1) (Z.to_nat r2)); [exact Hall | lia]. }
  split; [exact Hlt | split; [| split; reflexivity]].
  intros E. rewrite E, ltb_irrefl in Hlt. discriminate.
Qed.

Lemma scaled_strictly_increasing_witness :
  F32.ltb (scaled 127) (scaled 128) = true.
Proof.
  apply (scaled_strictly_increasing 127 128); lia.
Defined.

(** X10: on a canonical data set the image tensors do not depend on
    [one_hot], and every tensor returned has as many entries as its shape
    says. *)
Theorem data_mnist_tensors_well_formed
    (ds : Mnist.dataset) (n_train n_test : nat) :
  canonical ds n_train n_test ->
  exists X_train X_test y_train y_test,
    Mnist.data_mnist ds (Some true) =
      inr (X_train, Mnist.OneHot y_train, X_test, Mnist.OneHot y_test)
    /\ Mnist.data_mnist ds (Some false) =
      inr (X_train, Mnist.IntLabels (Mnist.raw_y_train ds),
           X_test, Mnist.IntLabels (Mnist.raw_y_test ds))
    /\ List.length (data X_train) = numel (shape X_train)
    /\ List.length (data X_test) = numel (shape X_test)
    /\ List.length (data y_train) = numel (shape y_train)
    /\ List.length (data y_test) = numel (shape y_test).
Proof.
  intros Hds. do 4 eexists.
  split; [apply (data_mnist_returns ds n_train n_test Hds (Some true)) |].
  split; [apply (data_mnist_returns ds n_train n_test Hds (Some false)) |].
  cbn [shape data].
  change (numel [n_train; 28; 28; 1]%nat) with (n_train * 784)%nat.
  change (numel [n_test; 28; 28; 1]%nat) with (n_test * 784)%nat.
  rewrite !length_map, (train_size _ _ _ Hds), (test_size _ _ _ Hds).
  split; [reflexivity | split; [reflexivity |]].
  destruct (one_hot_of_concat _ (train_digits _ _ _ Hds)) as (_ & L1 & _).
  destruct (one_hot_of_concat _ (test_digits _ _ _ Hds)) as (_ & L2 & _).
  cbn [data] in L1, L2. rewrite L1, L2. unfold numel. cbn [fold_right].
  split; lia.
Qed.

Lemma data_mnist_tensors_well_formed_witness :
  exists X_train X_test y_train y_test,
    Mnist.data_mnist demo_dataset (Some true) =
      inr (X_train, Mnist.OneHot y_train, X_test, Mnist.OneHot y_test)
    /\ Mnist.data_mnist demo_dataset (Some false) =
      inr (X_train, Mnist.IntLabels (Mnist.raw_y_train demo_dataset),
           X_test, Mnist.IntLabels (Mnist.raw_y_test demo_dataset))
    /\ List.length (data X_train) = numel (shape X_train)
    /\ List.length (data X_test) = numel (shape X_test)
    /\ List.length (data y_train) = numel (shape y_train)
    /\ List.length (data y_test) = numel (shape y_test).
Proof.
  apply (data_mnist_tensors_well_formed demo_dataset 2 1).
  constructor; try reflexivity; apply Forall_between; vm_compute; reflexivity.
Defined.

(* ===================================================================== *)
(** ** Further properties of the adversarial training graph *)
(* ===================================================================== *)

Section MoreFloatFacts.

Import Cifar10TrainEnsadv.

Lemma ltb_leb (x y : F32.t) : F32.ltb x y = true -> SFleb x y = true.
Proof.
  unfold F32.ltb, SFltb, SFleb.
  destruct (SFcompare x y) as [[ | | ] |]; intros H;
    try discriminate H; reflexivity.
Qed.

(** A number that is not NaN is clipped into [0,255]. *)
Lemma clip_in_range (x : F32.t) :
  x <> F32.nan ->
  SFleb F32.zero (clip F32.zero (F32.of_Z 255) x) = true
  /\ SFleb (clip F32.zero (F32.of_Z 255) x) (F32.of_Z 255) = true.
Proof.
  intros Hx. unfold clip, tf_minimum, tf_maximum.
  destruct (F32.ltb x (F32.of_Z 255)) eqn:Hhi.
  - destruct (F32.ltb F32.zero x) eqn:Hlo.
    + split; now apply ltb_leb.
    + split; reflexivity.
  - split; reflexivity.
Qed.

Lemma combine_map_length {A B C} (f : A * B -> C) (xs : list A) (ys : list B) :
  List.length ys = List.length xs ->
  List.length (map f (combine xs ys)) = List.length xs.
Proof.
  intros H. rewrite length_map, length_combine, H. apply Nat.min_id.
Qed.

End MoreFloatFacts.

Section MoreTrainFacts.

Import Cifar10TrainEnsadv.

Variable batch_size : nat.
Variable epsilon : F32.t.
Variable inference : tensor -> tensor.
Variable loss : tensor -> ndarray Z -> F32.t.
Variable TrainOp : Type.
Variable reusable_train : F32.t -> Z -> TrainOp.
Variable argmax : tensor -> ndarray Z.
Variable gradients : (tensor -> F32.t) -> tensor -> tensor.

Hypothesis gradients_layout : forall f x, same_layout (gradients f x) x.

Let run eps := train batch_size eps inference loss TrainOp reusable_train
                     argmax gradients.
Let shifted := shifted_images epsilon inference loss argmax gradients.

(** X11: every entry of the dynamic adversarial batch whose shifted pixel
    (clean pixel plus step) is not NaN lies in [0,255]. *)
Theorem dynamic_adv_images_in_pixel_range
    (b : batch) (adv_choice global_step : Z) :
  exists v,
    run epsilon b adv_choice global_step = inr v
    /\ Forall2 (fun x y => x <> F32.nan ->
                  SFleb F32.zero y = true /\ SFleb y (F32.of_Z 255) = true)
         (data (shifted b)) (data (dynamic_adv_images _ v)).
Proof.
  destruct (train_returns batch_size epsilon inference loss TrainOp
              reusable_train argmax gradients gradients_layout
              b adv_choice global_step) as (v & Hv & Hdyn & _).
  exists v. split; [exact Hv |].
  rewrite (dynamic_returns epsilon inference loss argmax gradients
             gradients_layout) in Hdyn.
  injection Hdyn as ->. unfold tf_clip_by_value, amap. cbn [data].
  fold (shifted b). induction (data (shifted b)) as [| x xs IH];
    cbn [map]; constructor; [apply clip_in_range | exact IH].
Qed.

(** X12: the dynamic adversarial batch has the shape of the clean batch
    and as many entries, so the two are aligned index for index. *)
Theorem dynamic_adv_images_aligned
    (b : batch) (adv_choice global_step : Z) :
  exists v,
    run epsilon b adv_choice global_step = inr v
    /\ same_layout (dynamic_adv_images _ v) (images b).
Proof.
  destruct (train_returns batch_size epsilon inference loss TrainOp
              reusable_train argmax gradients gradients_layout
              b adv_choice global_step) as (v & Hv & Hdyn & _).
  exists v. split; [exact Hv |].
  rewrite (dynamic_returns epsilon inference loss argmax gradients
             gradients_layout) in Hdyn.
  injection Hdyn as ->. split; [reflexivity |].
  unfold tf_clip_by_value, amap, shifted_images. cbn [data].
  rewrite length_map. apply combine_map_length.
  rewrite !length_map.
  apply (gradients_layout (noleak_loss_of inference loss argmax b) (images b)).
Qed.

(** X13: [epsilon] matters for draw 0 only: for any other draw, two runs
    that differ in [epsilon] alone feed the same adversarial batch and hand
    the same total loss to the optimiser. *)
Theorem epsilon_only_matters_for_draw_zero
    (epsilon' : F32.t) (b : batch) (adv_choice global_step : Z) :
  adv_choice <> 0 ->
  exists v v',
    run epsilon b adv_choice global_step = inr v
    /\ run epsilon' b adv_choice global_step = inr v'
    /\ adv_images _ v = adv_images _ v'
    /\ loss_total _ v = loss_total _ v'
    /\ train_op _ v = train_op _ v'.
Proof.
  intros Hc.
  destruct (train_returns batch_size epsilon inference loss TrainOp
              reusable_train argmax gradients gradients_layout
              b adv_choice global_step)
    as (v & Hv & _ & Hadv & Hben & Hla & Htot & Hop).
  destruct (train_returns batch_size epsilon' inference loss TrainOp
              reusable_train argmax gradients gradients_layout
              b adv_choice global_step)
    as (v' & Hv' & _ & Hadv' & Hben' & Hla' & Htot' & Hop').
  exists v, v'. split; [exact Hv |]. split; [exact Hv' |].
  assert (adv_images _ v = adv_images _ v') as Hsame.
  { rewrite Hadv, Hadv'. unfold tf_equal. cbn [tf_case].
    now rewrite (proj2 (Z.eqb_neq _ _) Hc). }
  assert (loss_total _ v = loss_total _ v') as Hloss by congruence.
  repeat split; congruence.
Qed.


End MoreTrainFacts.

Lemma dynamic_adv_images_in_pixel_range_witness :
  exists v,
    Cifar10TrainEnsadv.train 1 (F32.of_Z 8) demo_inference demo_loss _
      demo_train demo_argmax demo_gradients demo_batch 0 0 = inr v
    /\ Forall2 (fun x y => x <> F32.nan ->
                  SFleb F32.zero y = true /\ SFleb y (F32.of_Z 255) = true)
         (data (shifted_images (F32.of_Z 8) demo_inference demo_loss
                  demo_argmax demo_gradients demo_batch))
         (data (Cifar10TrainEnsadv.dynamic_adv_images _ v)).
Proof.
  apply (dynamic_adv_images_in_pixel_range 1 (F32.of_Z 8) demo_inference
           demo_loss _ demo_train demo_argmax demo_gradients).
  intros f x. split; [reflexivity | apply length_map].
Defined.

Lemma dynamic_adv_images_aligned_witness :
  exists v,
    Cifar10TrainEnsadv.train 1 (F32.of_Z 8) demo_inference demo_loss _
      demo_train demo_argmax demo_gradients demo_batch 2 0 = inr v
    /\ same_layout (Cifar10TrainEnsadv.dynamic_adv_images _ v)
                   (Cifar10TrainEnsadv.images demo_batch).
Proof.
  apply (dynamic_adv_images_aligned 1 (F32.of_Z 8) demo_inference
           demo_loss _ demo_train demo_argmax demo_gradients).
  intros f x. split; [reflexivity | apply length_map].
Defined.

Lemma epsilon_only_matters_for_draw_zero_witness :
  exists v v',
    Cifar10TrainEnsadv.train 1 (F32.of_Z 8) demo_inference demo_loss _
      demo_train demo_argmax demo_gradients demo_batch 2 0 = inr v
    /\ Cifar10TrainEnsadv.train 1 (F32.of_Z 16) demo_inference demo_loss _
         demo_train demo_argmax demo_gradients demo_batch 2 0 = inr v'
    /\ Cifar10TrainEnsadv.adv_images _ v = Cifar10TrainEnsadv.adv_images _ v'
    /\ Cifar10TrainEnsadv.loss_total _ v = Cifar10TrainEnsadv.loss_total _ v'
    /\ Cifar10TrainEnsadv.train_op _ v = Cifar10TrainEnsadv.train_op _ v'.
Proof.
  apply (epsilon_only_matters_for_draw_zero 1 (F32.of_Z 8) demo_inference
           demo_loss _ demo_train demo_argmax demo_gradients).
  - intros f x. split; [reflexivity | apply length_map].
  - discriminate.
Defined.


(* ===================================================================== *)
(** ** Properties of the logging hook *)
(* ===================================================================== *)

Section HookFacts.

Import LoggerHook.

Variable log_frequency : Z.
Variable batch_size : Z.

(** The two int operands of the float divisions convert, and the
    frequency is not zero. *)
Variables examples frequency : f64.
Hypothesis Hexamples : float_of_int (log_frequency * batch_size) = inr examples.
Hypothesis Hfrequency : float_of_int log_frequency = inr frequency.
Hypothesis Hnonzero : is_zero frequency = false.






End HookFacts.


Section HookFailures.

Import LoggerHook.

Lemma fsub_diag (t : f64) :
  t <> S754_nan -> (forall s, t <> S754_infinity s) ->
  is_zero (fsub t t) = true.
Proof.
  intros Hnan Hinf. destruct t as [s | s | | s m e].
  - destruct s; reflexivity.
  - now elim (Hinf s).
  - now elim Hnan.
  - unfold fsub. cbn [SFsub]. rewrite Z.min_id. unfold shl_align.
    rewrite Z.sub_diag. reflexivity.
Qed.

(** X16: the hook divides by zero in two situations.  With
    [log_frequency] 0 the first run of any session raises
    [ZeroDivisionError], whatever the clock says.  With another frequency,
    a first reading equal to the (finite) reading taken in [begin] makes
    the duration zero and the first run raises [ZeroDivisionError] too. *)
Theorem logger_hook_division_by_zero
    (log_frequency batch_size : Z) (started now : f64) (results : F32.t)
    (rest : list (f64 * F32.t)) :
  (log_frequency = 0 ->
     session_runs log_frequency batch_size (begin started)
       ((now, results) :: rest) = inl ZeroDivisionError)
  /\ (forall examples,
        log_frequency <> 0 ->
        float_of_int (log_frequency * batch_size) = inr examples ->
        started <> S754_nan -> (forall s, started <> S754_infinity s) ->
        session_runs log_frequency batch_size (begin started)
          ((started, results) :: rest) = inl ZeroDivisionError).
Proof.
  split.
  - intros ->. reflexivity.
  - intros examples Hf Hex Hnan Hinf.
    cbn [session_runs]. unfold after_run, int_mod.
    rewrite (proj2 (Z.eqb_neq _ _) Hf). cbn [Py.bind Py.ret].
    cbn [before_run begin _step _start_time].
    change (-1 + 1) with 0. rewrite Z.mod_0_l by exact Hf. cbn [Z.eqb].
    rewrite Hex. cbn [Py.bind]. unfold float_div at 1.
    rewrite (fsub_diag started Hnan Hinf). reflexivity.
Qed.

End HookFailures.

Lemma logger_hook_division_by_zero_witness :
  LoggerHook.session_runs 0 128 (LoggerHook.begin (F64.of_Z 100)) demo_clock
    = inl LoggerHook.ZeroDivisionError
  /\ LoggerHook.session_runs 10 128 (LoggerHook.begin (F64.of_Z 100))
       [(F64.of_Z 100, F32.of_Z 3)] = inl LoggerHook.ZeroDivisionError.
Proof.
  split.
  - apply (proj1 (logger_hook_division_by_zero 0 128 (F64.of_Z 100)
                    (F64.of_Z 101) (F32.of_Z 1) (tl demo_clock))).
    reflexivity.
  - apply (proj2 (logger_hook_division_by_zero 10 128 (F64.of_Z 100)
                    (F64.of_Z 100) (F32.of_Z 3) []) (F64.of_Z 1280)).
    + discriminate.
    + reflexivity.
    + discriminate.
    + intros s. discriminate.
Defined.

(* ===================================================================== *)
(** ** Properties of [main] *)
(* ===================================================================== *)

Section TrainDirFacts.

Import TrainDir.






End TrainDirFacts.

